(** * Football-Internship: the scraping scripts, shallow embedding

    The repository is a set of stand-alone Python scripts that scrape
    statistics tables from one website, clean the text and write CSV files
    or SQLite databases.  Part I embeds the scripts: pure helpers become
    functions, and each [main] becomes a computation in a small monad that
    threads the I/O trace and the file system and propagates exceptions.
    The network, the HTML parsers, pandas and the regular-expression engine
    are libraries outside the repository: what they return is an input of
    the embedded functions (class [World]).  Part II states and proves the
    properties. *)

From stdpp Require Import base list strings gmap pretty sorting.

Set Default Proof Using "Type".

(** * Part I: the embedding *)

(** ** Python primitives *)

Module Py.

(** A Python [str] is a sequence of Unicode code points.  Text that comes
    from a page is a [str]; text the scripts build themselves (URLs, paths,
    column names, printed lines) is a Rocq [string]. *)
Abbreviation char := N.
Abbreviation str := (list N).

(** ASCII literals. *)
Definition lit (s : string) : str :=
  Ascii.N_of_ascii <$> String.list_ascii_of_string s.
Arguments lit : simpl never.

(** The character classes and case mappings come from the Unicode database
    of the interpreter; the scripts only call them. *)
Class UnicodeData := {
  isspace : char → bool;
  isdigit : char → bool;
  isalnum : char → bool;
  isalpha : char → bool;
  isdecimal : char → bool;     (* the class [\d] of the regular expressions *)
  upper : str → str;
  lower : str → str;
}.

(** The ASCII part of the Unicode database, enough to run the functions on
    ASCII inputs. *)
Definition ascii_isspace (c : char) : bool :=
  bool_decide (9 ≤ c ≤ 13 ∨ 28 ≤ c ≤ 32)%N.
Definition ascii_isdigit (c : char) : bool := bool_decide (48 ≤ c ≤ 57)%N.
Definition ascii_isupper (c : char) : bool := bool_decide (65 ≤ c ≤ 90)%N.
Definition ascii_islower (c : char) : bool := bool_decide (97 ≤ c ≤ 122)%N.
Definition ascii_isalpha (c : char) : bool := ascii_isupper c || ascii_islower c.
Definition ascii_isalnum (c : char) : bool := ascii_isalpha c || ascii_isdigit c.
Definition ascii_upper (s : str) : str :=
  (λ c, if ascii_islower c then c - 32 else c)%N <$> s.
Definition ascii_lower (s : str) : str :=
  (λ c, if ascii_isupper c then c + 32 else c)%N <$> s.

Definition ascii_data : UnicodeData := {|
  isspace := ascii_isspace; isdigit := ascii_isdigit;
  isalnum := ascii_isalnum; isalpha := ascii_isalpha;
  isdecimal := ascii_isdigit;
  upper := ascii_upper; lower := ascii_lower |}.

Section str_ops.
Context `{UnicodeData}.

(** [s.lstrip()], [s.rstrip()], [s.strip()] *)
Fixpoint lstrip (s : str) : str :=
  match s with
  | [] => []
  | c :: s' => if isspace c then lstrip s' else s
  end.
Definition rstrip (s : str) : str := reverse (lstrip (reverse s)).
Definition strip (s : str) : str := rstrip (lstrip s).

(** A string that does not start with white space: [lstrip] leaves it. *)
Definition clean_start (s : str) : Prop :=
  match s with [] => True | c :: _ => ¬ isspace c end.

(** [''.join(ch for ch in s if not ch.isdigit())] *)
Definition remove_digits (s : str) : str := filter (λ ch, ¬ isdigit ch) s.

(** [s.isdigit()]: every character is a digit and there is at least one *)
Definition str_isdigit (s : str) : bool :=
  bool_decide (s ≠ []) && forallb isdigit s.

(** [s[a:b]] for [0 <= a <= b] *)
Definition slice (a b : nat) (s : str) : str := take (b - a) (drop a s).

(** [range(a, b)] over the naturals and over the integers *)
Definition range (a b : nat) : list nat := seq a (b - a).
Definition rangeZ (a b : Z) : list Z := seqZ a (b - a).

(** [w in s] for strings: [w] occurs in [s] as a contiguous block *)
Fixpoint str_in (w s : str) : bool :=
  bool_decide (w `prefix_of` s) ||
  match s with
  | [] => false
  | _ :: s' => str_in w s'
  end.

(** [s.replace(old, new)] for a non-empty [old]: the occurrences are
    replaced from left to right without overlap; [skip] counts the
    characters of a replaced occurrence that are still to be passed. *)
Fixpoint replace_go (old new : str) (skip : nat) (s : str) : str :=
  match s with
  | [] => []
  | c :: s' =>
      match skip with
      | S k => replace_go old new k s'
      | 0 =>
          if bool_decide (old `prefix_of` s)
          then new ++ replace_go old new (length old - 1) s'
          else c :: replace_go old new 0 s'
      end
  end.
Definition replace (old new s : str) : str := replace_go old new 0 s.

(** The pieces of [s] between the characters of the class [sep]. *)
Fixpoint split_on (sep : char → bool) (s : str) : list str :=
  match s with
  | [] => [[]]
  | c :: s' =>
      if sep c then [] :: split_on sep s'
      else match split_on sep s' with
           | [] => [[c]]
           | p :: ps => (c :: p) :: ps
           end
  end.

(** [s] without its longest prefix of characters of the class [cls]. *)
Fixpoint drop_while (cls : char → bool) (s : str) : str :=
  match s with
  | [] => []
  | c :: s' => if cls c then drop_while cls s' else s
  end.

(** [re.sub(r"[cls]+", rep, s)]: every maximal run of characters of the
    class [cls] becomes the single character [rep]. *)
Fixpoint squash (cls : char → bool) (rep : char) (in_run : bool) (s : str) : str :=
  match s with
  | [] => []
  | c :: s' =>
      if cls c then (if in_run then squash cls rep true s' else rep :: squash cls rep true s')
      else c :: squash cls rep false s'
  end.

(** [s.split(sep, 1)] at the first character [sep], when there is one *)
Fixpoint split_first (sep : char) (s : str) : option (str * str) :=
  match s with
  | [] => None
  | c :: s' =>
      if decide (c = sep) then Some ([], s')
      else match split_first sep s' with
           | Some (a, b) => Some (c :: a, b)
           | None => None
           end
  end.

(** [sep.join(parts)] *)
Fixpoint join (sep : str) (parts : list str) : str :=
  match parts with
  | [] => []
  | [p] => p
  | p :: ps => p ++ sep ++ join sep ps
  end.

(** Comparison of strings: lexicographic on the code points. *)
Fixpoint str_le (s t : str) : bool :=
  match s, t with
  | [], _ => true
  | _ :: _, [] => false
  | a :: s', b :: t' =>
      if bool_decide (a = b) then str_le s' t' else bool_decide (a < b)%N
  end.

End str_ops.

(** [i] is the position of the first element of [l] that satisfies [P]:
    what a [for] loop with [break] at the first hit finds. *)
Definition first_such {A} (P : A → Prop) (l : list A) (i : nat) : Prop :=
  (∃ x, l !! i = Some x ∧ P x) ∧ ∀ j y, j < i → l !! j = Some y → ¬ P y.

(** The loop
<<
    seen = set(); unique = []
    for r in rows:
        if key(r) in seen: continue
        seen.add(key(r)); unique.append(r)
>>
    started with the keys [seen]. *)
Fixpoint dedupe {A K} `{Countable K} (key : A → K) (seen : gset K) (rows : list A) : list A :=
  match rows with
  | [] => []
  | r :: rest =>
      if decide (key r ∈ seen) then dedupe key seen rest
      else r :: dedupe key ({[key r]} ∪ seen) rest
  end.

(** [list.sort(key=...)] and [sorted]: a stable sort; [le x y] says that the
    key of [x] is at most the key of [y]. *)
Fixpoint insert_sorted {A} (le : A → A → bool) (x : A) (l : list A) : list A :=
  match l with
  | [] => [x]
  | y :: l' => if le x y then x :: l else y :: insert_sorted le x l'
  end.
Definition sort {A} (le : A → A → bool) (l : list A) : list A :=
  foldr (insert_sorted le) [] l.

End Py.

(** ** Collapsing a duplicated name *)

Module CollapseDup.
Import Py.

Section collapse.
Context `{UnicodeData}.

(** [s[:n] == s[n:2*n]] *)
Definition dup_at (s : str) (n : nat) : Prop :=
  slice 0 n s = slice n (2 * n) s.

#[global] Instance dup_at_dec s n : Decision (dup_at s n).
Proof. unfold dup_at. apply _. Defined.

(** scripts/fetch_scoring.py, defined twice there with the same body:
<<
    def collapse_dup(s):
        s = s.strip()
        L = len(s)
        for split in range(3, L//2 + 1):
            if s[:split] == s[split:2*split]:
                return s[split:2*split].strip()
        return s
>> *)
Definition collapse_dup (s : str) : str :=
  let s := strip s in
  let L := length s in
  match list_find (dup_at s) (range 3 (L / 2 + 1)) with
  | Some (_, split) => strip (slice split (2 * split) s)
  | None => s
  end.

(** scripts/clean_scoring.py:
<<
    def collapse_dup_name(s: str) -> str:
        s = (s or '').strip()
        s = ''.join(ch for ch in s if not ch.isdigit())
        L = len(s)
        for n in range(3, L // 2 + 1):
            if s[:n] == s[n:2*n]:
                return s[:n].strip()
        return s
>> *)
Definition collapse_dup_name (s : str) : str :=
  let s := strip s in
  let s := remove_digits s in
  let L := length s in
  match list_find (dup_at s) (range 3 (L / 2 + 1)) with
  | Some (_, n) => strip (slice 0 n s)
  | None => s
  end.

(** The collapse as the specification words it: on the stripped input, the
    smallest [n >= 3] whose first [n] characters equal the next [n] selects
    the block that is returned stripped; without such an [n] the stripped
    input is returned. *)
Definition block_repeats (t : str) (n : nat) : Prop :=
  3 ≤ n ∧ 2 * n ≤ length t ∧ take n t = take n (drop n t).

Inductive collapse_spec (s : str) : str → Prop :=
| collapse_block n :
    block_repeats (strip s) n →
    (∀ m, m < n → ¬ block_repeats (strip s) m) →
    collapse_spec s (strip (take n (strip s)))
| collapse_none :
    (∀ n, ¬ block_repeats (strip s) n) →
    collapse_spec s (strip s).

End collapse.
End CollapseDup.

(** ** Scripts as computations *)

Module Script.
Import Py.

(** How a call ends. *)
Inductive outcome (A : Type) : Type :=
| Return (a : A)
| Raise (e : string)     (* an exception, caught by [except Exception] *)
| Exit (code : Z).       (* [sys.exit(code)]; [except Exception] lets it pass *)
Arguments Return {A} a.
Arguments Raise {A} e.
Arguments Exit {A} code.

(** What a library call gives back: a value or an exception. *)
Inductive answer (A : Type) : Type :=
| Ok (a : A)
| Error (e : string).
Arguments Ok {A} a.
Arguments Error {A} e.

(** Values of a row dictionary or of a DataFrame. *)
Inductive cell := Str (s : str) | Int (n : Z) | NaN.

#[global] Instance cell_eq_dec : EqDecision cell.
Proof. solve_decision. Defined.

(** What [to_csv] writes for a value. *)
Definition render (c : cell) : str :=
  match c with
  | Str s => s
  | Int n => lit (pretty n)
  | NaN => []
  end.

(** A row as the scripts build it: a dictionary from column name to value. *)
Abbreviation dict := (gmap str cell).

(** [row.get(k, '')], read as a string *)
Definition get (row : dict) (k : string) : str :=
  match row !! lit k with
  | Some c => render c
  | None => []
  end.

(** A pandas DataFrame with string labels: the columns in order, and for
    every row the value under each label. *)
Record frame := Frame { columns : list str; records : list dict }.

(** Files.  A CSV file is the list of its lines, each the list of its
    fields; a database is the list of its tables. *)
Inductive kind := CSV | JSON | SQLITE | XLSX.
Inductive file :=
| Csv (lines : list (list str))
| Json (objs : list (list (str * cell)))
| Sqlite (tables : list (str * frame))
| Xlsx (sheets : list (string * frame)).

Definition kind_of (f : file) : kind :=
  match f with
  | Csv _ => CSV
  | Json _ => JSON
  | Sqlite _ => SQLITE
  | Xlsx _ => XLSX
  end.

#[global] Instance kind_eq_dec : EqDecision kind.
Proof. solve_decision. Defined.

(** What a run does to the outside, in order. *)
Inductive event :=
| Print (line : str)
| Get (url : string)              (* an HTTP request for [url] *)
| Read (path : string) (k : kind)
| Write (path : string) (k : kind)
| Unlink (path : string).

#[global] Instance event_eq_dec : EqDecision event.
Proof. solve_decision. Defined.

Record state := State { trace : list event; files : gmap string file }.

(** A pandas table as [pd.read_html] returns it: the column index (plain,
    or with two header levels) and the rows, each value as [str(x)]. *)
Inductive pd_columns :=
| Index (labels : list str)
| MultiIndex (labels : list (str * str)).
Record pd_frame := PdFrame { pd_columns_of : pd_columns; pd_rows : list (list str) }.

(** A [<table>] as BeautifulSoup shows it: the rows of [<thead>] and of
    [<tbody>] when present, each row the stripped texts of its cells. *)
Record soup_table := SoupTable {
  thead : option (list (list str));
  tbody : option (list (list str));
}.

(** A table as the headless browser renders it (fetch_defense.py). *)
Record rendered_table := Rendered {
  headers : list str;
  rows : list (list str);
}.

(** The outside of the repository.  Responses may depend on what happened
    before, so the oracles take the trace. *)
Class World := {
  page : Type;
  (** [requests.get(url, timeout=...)] followed by [raise_for_status()] *)
  response : list event → string → answer page;
  (** [pd.read_html(text)] and [pd.read_html(text, flavor='bs4')] *)
  read_html : page → answer (list pd_frame);
  read_html_bs4 : page → answer (list pd_frame);
  (** [BeautifulSoup(text, "html5lib")], then every [<table>] *)
  soup_html5lib : page → answer (list soup_table);
  (** whether [playwright] can be imported, and what loading a URL in the
      browser gives: the rendered tables of the page or an exception *)
  playwright_installed : bool;
  rendered : list event → string → answer (page * list rendered_table);
}.

Section monad.
Context `{World}.

Definition M (A : Type) : Type := state → outcome A * state.

#[global] Instance M_ret : MRet M := λ A a st, (Return a, st).
#[global] Instance M_bind : MBind M := λ A B f m st,
  match m st with
  | (Return a, st') => f a st'
  | (Raise e, st') => (Raise e, st')
  | (Exit c, st') => (Exit c, st')
  end.
#[global] Instance M_fmap : FMap M := λ A B f m, a ← m; mret (f a).

Definition raise {A} (e : string) : M A := λ st, (Raise e, st).
Definition sys_exit {A} (code : Z) : M A := λ st, (Exit code, st).
Definition lift {A} (r : answer A) : M A := λ st,
  (match r with Ok a => Return a | Error e => Raise e end, st).

(** [try: body  except Exception as e: handler(e)] *)
Definition try_except {A} (body : M A) (handler : string → M A) : M A := λ st,
  match body st with
  | (Raise e, st') => handler e st'
  | r => r
  end.

Definition emit (ev : event) : M unit := λ st,
  (Return (), State (trace st ++ [ev]) (files st)).
Definition print (line : string) : M unit := emit (Print (lit line)).
Definition print_str (line : str) : M unit := emit (Print line).

(** [for x in l: acc = body(x, acc)] *)
Fixpoint for_ {A S} (l : list A) (body : A → S → M S) (acc : S) : M S :=
  match l with
  | [] => mret acc
  | x :: l' => acc' ← body x acc; for_ l' body acc'
  end.

(** [requests.get(url, ...); r.raise_for_status()] *)
Definition requests_get (url : string) : M page := λ st,
  lift (response (trace st) url) (State (trace st ++ [Get url]) (files st)).

(** [page.goto(url)] in the headless browser *)
Definition page_goto (url : string) : M (page * list rendered_table) := λ st,
  lift (rendered (trace st) url) (State (trace st ++ [Get url]) (files st)).

(** [os.path.exists(path)], [Path.exists()] *)
Definition path_exists (path : string) : M bool := λ st,
  (Return (bool_decide (is_Some (files st !! path))), st).

Definition write_file (path : string) (f : file) : M unit := λ st,
  (Return (), State (trace st ++ [Write path (kind_of f)]) (<[path := f]> (files st))).

(** [Path.unlink()] of an existing file *)
Definition unlink (path : string) : M unit := λ st,
  (Return (), State (trace st ++ [Unlink path]) (delete path (files st))).

(** ** pandas *)

(** [pd.DataFrame(all_rows)]: one record per dictionary, the columns being
    the keys that occur.  pandas lists them by first appearance; every
    script reorders the columns by name before it writes, so the embedding
    takes them in the order of the maps. *)
Definition DataFrame (all_rows : list dict) : frame :=
  Frame (remove_dups (all_rows ≫= λ r, (map_to_list r).*1)) all_rows.

(** [df[c] = v] *)
Definition set_column (c : str) (v : cell) (df : frame) : frame :=
  Frame (if decide (c ∈ columns df) then columns df else columns df ++ [c])
        (<[c := v]> <$> records df).

(** [for c in cols: if c not in df.columns: df[c] = ''] *)
Definition add_missing (cols : list str) (df : frame) : frame :=
  foldl (λ df c, if decide (c ∈ columns df) then df else set_column c (Str []) df) df cols.

(** [df[cols]] *)
Definition select (cols : list str) (df : frame) : frame :=
  Frame cols (filter (λ kv, kv.1 ∈ cols) <$> records df).

(** The lines [to_csv(index=False)] produces: a missing value is written as
    the empty field. *)
Definition csv_line (cols : list str) (r : dict) : list str :=
  (λ c, render (default NaN (r !! c))) <$> cols.
Definition csv_lines (header : bool) (df : frame) : list (list str) :=
  (if header then [columns df] else []) ++ (csv_line (columns df) <$> records df).

Inductive mode := W | A.

(** [df.to_csv(path, mode=..., index=False, header=...)].  Appending to a
    file that is not a CSV file is outside the embedding. *)
Definition to_csv (df : frame) (path : string) (m : mode) (header : bool) : M unit := λ st,
  match m, files st !! path with
  | A, Some (Csv old) => write_file path (Csv (old ++ csv_lines header df)) st
  | A, Some _ => (Raise "not a CSV file", st)
  | _, _ => write_file path (Csv (csv_lines header df)) st
  end.

(** [df.to_json(path, orient='records')] *)
Definition to_json (df : frame) (path : string) : M unit :=
  write_file path
    (Json ((λ r, (λ c, (c, default NaN (r !! c))) <$> columns df) <$> records df)).

(** The fields pandas reads as missing. *)
Definition na_values : list str := lit <$>
  [""; "#N/A"; "#N/A N/A"; "#NA"; "-1.#IND"; "-1.#QNAN"; "-NaN"; "-nan";
   "1.#IND"; "1.#QNAN"; "<NA>"; "N/A"; "NA"; "NULL"; "NaN"; "None"; "n/a";
   "nan"; "null"].

(** [pd.read_csv(path, dtype=str).fillna("")]: the first line gives the
    labels, every field is a string, the missing ones the empty string. *)
Definition read_field (s : str) : cell :=
  if decide (s ∈ na_values) then Str [] else Str s.
Definition read_csv_str (path : string) : M frame := λ st,
  let st' := State (trace st ++ [Read path CSV]) (files st) in
  match files st !! path with
  | Some (Csv (header :: lines)) =>
      (Return (Frame header ((λ l, list_to_map (zip header (read_field <$> l))) <$> lines)), st')
  | Some (Csv []) => (Raise "No columns to parse from file", st')
  | Some _ => (Raise "Error tokenizing data", st')
  | None => (Raise "No such file or directory", st')
  end.

(** [pd.read_csv(path)]: as above, a missing field being [NaN].  pandas
    also turns numeric columns into numbers; the embedding keeps the text
    of the fields. *)
Definition read_na (s : str) : cell :=
  if decide (s ∈ na_values) then NaN else Str s.
Definition read_csv (path : string) : M frame := λ st,
  let st' := State (trace st ++ [Read path CSV]) (files st) in
  match files st !! path with
  | Some (Csv (header :: lines)) =>
      (Return (Frame header ((λ l, list_to_map (zip header (read_na <$> l))) <$> lines)), st')
  | Some (Csv []) => (Raise "No columns to parse from file", st')
  | Some _ => (Raise "Error tokenizing data", st')
  | None => (Raise "No such file or directory", st')
  end.

(** [list(pd.read_csv(path, nrows=0).columns)] *)
Definition read_csv_columns (path : string) : M (list str) :=
  df ← read_csv path; mret (columns df).

End monad.

(** ** Formatting *)

(** [template.format(year=y)] for a template whose only replacement field
    is [{year}]; [skip] counts the characters of the field still to pass. *)
Fixpoint format_go (year : string) (skip : nat) (template : string) : string :=
  match template with
  | EmptyString => EmptyString
  | String c rest =>
      match skip with
      | S k => format_go year k rest
      | 0 =>
          if String.prefix "{year}" template
          then year +:+ format_go year 5 rest
          else String c (format_go year 0 rest)
      end
  end.
Definition format_year (template : string) (year : Z) : string :=
  format_go (pretty year) 0 template.

End Script.

(** ** scripts/fetch_scoring.py *)

Module fetch_scoring.
Import Py Script CollapseDup.

Definition BASE : string := "https://hurstathletics.com/sports/football/stats".
Definition YEARS : list Z := rangeZ 2012 2026.
Definition OUT_PATH : string :=
  "/workspaces/Football-Internship/Season Stats/Offense/all_mercyhurst_scoring.csv".
Definition WANT_COLS : list str := lit <$>
  ["#"; "Name"; "TD"; "FG"; "SAF"; "KICK"; "RUSH"; "RCV"; "PASS"; "DXP"; "PTS"].

Section scoring.
Context `{UnicodeData} `{World}.

(** [find_scoring_table]: the first table with a [<thead>] of at least two
    rows whose second row has a cell "PTS", "TD" or "KICK". *)
Fixpoint find_scoring_table (tables : list soup_table) : option (soup_table * list str) :=
  match tables with
  | [] => None
  | table :: rest =>
      match thead table with
      | None => find_scoring_table rest
      | Some hrows =>
          if decide (length hrows < 2) then find_scoring_table rest
          else
            let second := default [] (hrows !! 1) in
            if existsb (λ k, bool_decide (lit k ∈ second)) ["PTS"; "TD"; "KICK"]
            then Some (table, second)
            else find_scoring_table rest
      end
  end.

(** [norm] of [parse_table]:
    ["".join(ch for ch in (s or "") if ch.isalnum()).upper()] *)
Definition norm (s : str) : str := upper (filter (λ ch, isalnum ch) s).

(** [w == hn or w in hn or hn in w] *)
Definition header_matches (w hn : str) : Prop :=
  w = hn ∨ str_in w hn ∨ str_in hn w.

#[global] Instance header_matches_dec w hn : Decision (header_matches w hn).
Proof. unfold header_matches. apply _. Defined.

(** The inner loop: the index of the first header that matches, if any. *)
Definition find_header (w : str) (header_norms : list str) : option nat :=
  fst <$> list_find (header_matches w) header_norms.

(** The dictionary [idx] from wanted column to header index. *)
Definition build_idx (header_row : list str) : gmap str nat :=
  let header_norms := norm <$> header_row in
  foldl (λ idx want,
           match find_header (norm want) header_norms with
           | Some found => <[want := found]> idx
           | None => idx
           end) ∅ WANT_COLS.

(** [cells[idx[col]] if col in idx and idx[col] < len(cells) else ""] *)
Definition pick (idx : gmap str nat) (cells : list str) (col : str) : str :=
  match idx !! col with
  | Some i => if decide (i < length cells) then default [] (cells !! i) else []
  | None => []
  end.

Definition raw_row (idx : gmap str nat) (cells : list str) : dict :=
  foldl (λ row col, <[col := Str (pick idx cells col)]> row) ∅ WANT_COLS.

(** The cleaning of the name at the end of the row loop of [parse_table]:
    the jersey number and all digits are removed, a duplicated half is
    collapsed, and the year is attached. *)
Definition finish_row (row : dict) (year : Z) : dict :=
  let name := get row "Name" in
  let jersey := get row "#" in
  let name := if decide (jersey ≠ []) then replace jersey [] name else name in
  let name := remove_digits name in
  let name := collapse_dup name in
  <[lit "Year" := Int year]> (<[lit "Name" := Str name]> row).

Definition parse_table (table : soup_table) (header_row : list str) (year : Z) : list dict :=
  let idx := build_idx header_row in
  match tbody table with
  | None => []
  | Some trs =>
      (λ cells, finish_row (raw_row idx cells) year) <$> filter (λ cells, cells ≠ []) trs
  end.

(** The header row [fetch_year] reads off a pandas table: the second level
    of a two-level index, else the labels, stripped. *)
Definition header_row_of (cols : pd_columns) : list str :=
  match cols with
  | MultiIndex labels => (λ l, strip l.2) <$> labels
  | Index labels => strip <$> labels
  end.

(** [any(k in " ".join(header_row).upper() for k in ("PTS", "TD", "KICK"))] *)
Definition looks_like_scoring (header_row : list str) : bool :=
  existsb (λ k, str_in (lit k) (upper (join (lit " ") header_row))) ["PTS"; "TD"; "KICK"].

(** The two heuristics of the pandas path: a name is taken from the first
    cell with a comma and a letter when the mapped name is empty or has a
    digit, a jersey number from the first cell of at most three digits when
    the mapped one is empty. *)
Definition name_candidate (cells : list str) : str :=
  default [] (head (filter (λ c, 44%N ∈ c ∧ existsb isalpha c) cells)).
Definition num_candidate (cells : list str) : str :=
  default [] (head (filter (λ c, str_isdigit c ∧ length c ≤ 3) cells)).

Definition locate_name (cells : list str) (row : dict) : dict :=
  if decide (get row "Name" = [] ∨ existsb isdigit (get row "Name"))
  then (if decide (name_candidate cells ≠ [])
        then <[lit "Name" := Str (name_candidate cells)]> row else row)
  else row.
Definition locate_number (cells : list str) (row : dict) : dict :=
  if decide (get row "#" = [])
  then (if decide (num_candidate cells ≠ [])
        then <[lit "#" := Str (num_candidate cells)]> row else row)
  else row.

Definition frame_rows (df : pd_frame) (header_row : list str) (year : Z) : list dict :=
  let idx := build_idx header_row in
  (λ rrow,
     let cells := strip <$> rrow in
     finish_row (locate_number cells (locate_name cells (raw_row idx cells))) year)
  <$> pd_rows df.

(** The loop over the pandas tables: the first that looks like a scoring
    table gives the rows. *)
Fixpoint first_scoring_frame (dfs : list pd_frame) (year : Z) : list dict :=
  match dfs with
  | [] => []
  | df :: rest =>
      let header_row := header_row_of (pd_columns_of df) in
      if looks_like_scoring header_row then frame_rows df header_row year
      else first_scoring_frame rest year
  end.

(** [fetch_year]: the page of the year, else the base page, else no rows;
    the tables through pandas, else through BeautifulSoup. *)
Definition fetch_page (year : Z) : M (option page) :=
  let url := BASE +:+ "/" +:+ pretty year in
  try_except (Some <$> requests_get url)
    (λ _, try_except (Some <$> requests_get BASE) (λ _, mret None)).

Definition fetch_year (year : Z) : M (list dict) :=
  r ← fetch_page year;
  match r with
  | None => mret []
  | Some r =>
      match read_html r with
      | Ok dfs => mret (first_scoring_frame dfs year)
      | Error _ =>
          soup ← lift (soup_html5lib r);
          match find_scoring_table soup with
          | None => mret []
          | Some (table, header_row) => mret (parse_table table header_row year)
          end
      end
  end.

(** The loop of [main] over the years: an exception of a year is printed
    and the loop goes on. *)
Definition collect : M (list dict) :=
  for_ YEARS (λ year all_rows,
    try_except
      (rows ← fetch_year year;
       print (pretty year +:+ ": found " +:+ pretty (length rows) +:+ " rows");;
       mret (all_rows ++ rows))
      (λ e, print (pretty year +:+ ": error " +:+ e);; mret all_rows)) [].

(** [clean_name] of the post-processing step. *)
Definition clean_name (s jersey : str) : str :=
  let s := if decide (jersey ≠ [] ∧ str_in jersey s) then replace jersey [] s else s in
  collapse_dup (remove_digits s).

(** The loop body of the post-processing step on one record of the file
    read back; the values are visited in the order of the columns. *)
Definition reclean (cols : list str) (row : dict) : dict :=
  let name := clean_name (get row "Name") (get row "#") in
  let values := csv_line cols row in
  let name :=
    if decide (name ≠ []) then name
    else match head (filter (λ v, 44%N ∈ v ∧ existsb isalpha v) values) with
         | Some v => strip (remove_digits v)
         | None => name
         end in
  <[lit "Name" := Str name]> row.

Definition postprocess : M unit :=
  try_except
    (df2 ← read_csv_str OUT_PATH;
     let df2' := Frame (if decide (lit "Name" ∈ columns df2) then columns df2
                        else columns df2 ++ [lit "Name"])
                       (reclean (columns df2) <$> records df2) in
     to_csv df2' OUT_PATH W true;;
     print ("Cleaned Name field and updated " +:+ OUT_PATH))
    (λ _, mret ()).

Definition main : M unit :=
  all_rows ← collect;
  if decide (all_rows = []) then print "No data collected."
  else
    let df := DataFrame all_rows in
    let cols := WANT_COLS ++ [lit "Year"] in
    let df := select cols (add_missing cols df) in
    to_csv df OUT_PATH W true;;
    print ("Wrote " +:+ pretty (length (records df)) +:+ " rows to " +:+ OUT_PATH);;
    postprocess.

End scoring.
End fetch_scoring.

(** ** scripts/fetch_scoring_v3.py *)

Module fetch_scoring_v3.
Import Py Script.

Definition BASE : string := "https://hurstathletics.com/sports/football/stats".
Definition YEARS : list Z := rangeZ 2012 2026.
Definition OUT_PATH : string :=
  "/workspaces/Football-Internship/Season Stats/Offense/all_mercyhurst_scoring.csv".
Definition WANT_COLS : list str := lit <$>
  ["#"; "Name"; "TD"; "FG"; "SAF"; "KICK"; "RUSH"; "RCV"; "PASS"; "DXP"; "PTS"].

(** The two searches of the script, by the regular-expression engine: the
    text matched (group 0) of the first match, if any. *)
Class Regex := {
  (** [re.search(r"[A-Za-z\-\.']+,\s+[A-Za-z\-\.']+(?:\s+[A-Za-z\-\.']+)*", s)] *)
  search_last_first : str → option str;
  (** [re.search(r"\d{1,3}", s)] *)
  search_jersey : str → option str;
}.

(** [str(rrow[col])] for a label [col] that several columns of the table
    carry: pandas then gives the Series of the cells under that label, and
    [str] its printed form, which shows the label, the cells, the number of
    the row and the type pandas gave the values.  The arguments are the
    labels, the row, the number of the row and the label. *)
Class Pandas := {
  series_str : list str → list str → nat → str → str;
}.

Section scoring_v3.
Context `{UnicodeData} `{World} `{Regex} `{Pandas}.

(** [col_label]: of a two-level label the second level when it is not empty
    and differs from the first, else the first; a plain label as it is. *)
Definition col_label_tuple (col : str * str) : str :=
  let lvl0 := strip col.1 in
  let lvl1 := strip col.2 in
  if decide (lvl1 ≠ [] ∧ lvl1 ≠ lvl0) then lvl1 else lvl0.
Definition col_labels (cols : pd_columns) : list str :=
  match cols with
  | MultiIndex labels => col_label_tuple <$> labels
  | Index labels => labels
  end.

(** [re.sub(r"[^A-Z0-9]", "", (s or "").upper())] *)
Definition norm (s : str) : str :=
  filter (λ ch, ascii_isupper ch || ascii_isdigit ch) (upper s).

(** [extract_name]: the "Last, First" match stripped, else the cell without
    digits, stripped, with a duplicated half collapsed. *)
Definition extract_name (cell : str) : str :=
  match search_last_first cell with
  | Some m => strip m
  | None =>
      let t := strip (remove_digits cell) in
      let L := length t in
      match list_find (CollapseDup.dup_at t) (range 3 (L / 2 + 1)) with
      | Some (_, n) => strip (slice 0 n t)
      | None => t
      end
  end.

(** [find_scoring_df]: the tables of the page (through the bs4 flavour, else
    the default one), and the first whose labels mention PTS, relabelled. *)
Definition read_tables (r : page) : M (list pd_frame) :=
  try_except (lift (read_html_bs4 r)) (λ _, lift (read_html r)).

Fixpoint first_pts_frame (dfs : list pd_frame) : option (list str * list (list str)) :=
  match dfs with
  | [] => None
  | df :: rest =>
      let labels := col_labels (pd_columns_of df) in
      if existsb (λ l, str_in (lit "PTS") (upper l)) labels
      then Some (labels, pd_rows df)
      else first_pts_frame rest
  end.

Definition find_scoring_df (r : page) : M (option (list str * list (list str))) :=
  dfs ← read_tables r; mret (first_pts_frame dfs).

(** [w == hn or w in hn or hn in w], for a header whose normal form is not
    empty ([if not hn: continue]). *)
Definition header_matches (w hn : str) : Prop :=
  hn ≠ [] ∧ (w = hn ∨ str_in w hn ∨ str_in hn w).

#[global] Instance header_matches_dec w hn : Decision (header_matches w hn).
Proof. unfold header_matches. apply _. Defined.

(** The loop over [labels_norm.items()]: the first label that matches.  The
    dictionary lists each label once, at its first position, so the first
    match is the first match along the columns. *)
Definition find_label (w : str) (labels : list str) : option str :=
  snd <$> list_find (λ col, header_matches w (norm col)) labels.

(** [cells = {col: str(rrow[col]) if col in rrow else '' for col in
    df.columns}]: every label of the table is in the row; under a label
    that one column carries the text is that of its cell, under a label
    that several columns carry it is the printed Series.  [n] is the number
    of the row. *)
Definition positions (labels : list str) (col : str) : list nat :=
  fst <$> filter (λ il, il.2 = col) (imap pair labels).
Definition cell_text (labels rrow : list str) (n : nat) (col : str) : str :=
  match positions labels col with
  | [i] => default [] (rrow !! i)
  | _ => series_str labels rrow n col
  end.
Definition cells_of (labels rrow : list str) (n : nat) : gmap str str :=
  list_to_map ((λ col, (col, cell_text labels rrow n col)) <$> labels).

(** [out[want]] after the mapping loop *)
Definition mapped (labels : list str) (cells : gmap str str) (want : str) : str :=
  match find_label (norm want) labels with
  | Some matched =>
      if decide (matched ≠ []) then strip (default [] (cells !! matched)) else []
  | None => []
  end.

(** [a or b]: the first of the two strings that is not empty *)
Definition or_else (a b : str) : str := if decide (a ≠ []) then a else b.

Definition out_row (labels : list str) (rrow : list str) (n : nat) (year : Z) : dict :=
  let cells := cells_of labels rrow n in
  let out : dict :=
    foldl (λ out want, <[want := Str (mapped labels cells want)]> out) ∅ WANT_COLS in
  let name :=
    extract_name (or_else (get out "Name") (default [] (cells !! lit "Player"))) in
  let out := <[lit "Name" := Str name]> out in
  let number :=
    default [] (search_jersey (or_else (get out "#") (default [] (cells !! lit "#")))) in
  let out := <[lit "#" := Str number]> out in
  <[lit "Year" := Int year]> out.

Definition fetch_page (year : Z) : M (option page) :=
  let url := BASE +:+ "/" +:+ pretty year in
  try_except (Some <$> requests_get url)
    (λ _, try_except (Some <$> requests_get BASE) (λ _, mret None)).

Definition fetch_year (year : Z) : M (list dict) :=
  r ← fetch_page year;
  match r with
  | None => mret []
  | Some r =>
      df ← find_scoring_df r;
      match df with
      | None => mret []
      | Some (labels, rrows) => mret (imap (λ n rrow, out_row labels rrow n year) rrows)
      end
  end.

(** The loop of [main]: no handler around [fetch_year]. *)
Definition collect : M (list dict) :=
  for_ YEARS (λ year all_rows,
    rows ← fetch_year year;
    print (pretty year +:+ ": found " +:+ pretty (length rows) +:+ " rows");;
    mret (all_rows ++ rows)) [].

Definition main : M unit :=
  all_rows ← collect;
  if decide (all_rows = []) then print "No data"
  else
    let df := DataFrame all_rows in
    let cols := WANT_COLS ++ [lit "Year"] in
    let df := select cols (add_missing cols df) in
    to_csv df OUT_PATH W true;;
    print ("Wrote " +:+ OUT_PATH).

End scoring_v3.
End fetch_scoring_v3.

(** ** scripts/fetch_defense.py *)

Module fetch_defense.
Import Py Script.

Definition BASE_URL : string := "https://hurstathletics.com/sports/football/stats".
Definition OUT_CSV : string := "Season Stats/Defense/all_mercyhurst_defense.csv".
Definition YEARS : list Z := rangeZ 2012 2026.
Definition DESIRED : list str := lit <$>
  ["#"; "Name"; "GP"; "NO"; "SOLO"; "ASST"; "TOT"; "TFL-YDS"; "SACKS-YDS";
   "INT"; "BU"; "QBH"; "FR"; "FF"; "KICK"; "SAF"].

(** Code points the script names: double quote, hash, apostrophe, comma,
    hyphen, full stop, en dash, line feed and carriage return. *)
Definition quote : char := 34%N.
Definition hash : char := 35%N.
Definition apostrophe : char := 39%N.
Definition comma : char := 44%N.
Definition hyphen : char := 45%N.
Definition dot : char := 46%N.
Definition en_dash : char := 8211%N.
Definition LF : char := 10%N.
Definition CR : char := 13%N.

Section defense.
Context `{UnicodeData} `{World}.

(** [extract_tables_with_playwright]: [None] without playwright, else the
    tables of the rendered page; a failure of the browser is an exception. *)
Definition extract_tables_with_playwright (url : string) : M (option (list rendered_table)) :=
  if playwright_installed then
    r ← page_goto url; mret (Some r.2)
  else mret None.

(** [re.sub(r"[\s\.]+", "", s)] *)
Definition squeeze (s : str) : str :=
  filter (λ ch, ¬ (isspace ch ∨ ch = dot)) s.

(** [s.replace("–", "-")] *)
Definition dashes (s : str) : str :=
  (λ ch, if decide (ch = en_dash) then hyphen else ch) <$> s.

(** [find_defense_table_from_rendered]: the first table whose joined,
    normalised headers mention a defensive column. *)
Fixpoint find_defense_table_from_rendered (tables : list rendered_table)
    : option (list str * list (list str)) :=
  match tables with
  | [] => None
  | t :: rest =>
      let norm := (λ h, squeeze (dashes (lower h))) <$> headers t in
      if existsb (λ x, str_in (lit x) (join (lit " ") norm))
           ["solo"; "asst"; "tfl"; "tfl-yds"; "sack"; "int"; "bu"]
      then Some (headers t, rows t)
      else find_defense_table_from_rendered rest
  end.

(** [target == hn or target in hn or hn in target] *)
Definition header_matches (target hn : str) : Prop :=
  target = hn ∨ str_in target hn ∨ str_in hn target.

#[global] Instance header_matches_dec target hn : Decision (header_matches target hn).
Proof. unfold header_matches. apply _. Defined.

(** The normal form of the headers and of a wanted column. *)
Definition header_norm (h : str) : str := squeeze (dashes (upper h)).
Definition target_of (col_name : str) : str := squeeze (upper col_name).

(** [re.match(r"^#|^no\b", h, re.I)]: [h] starts with '#', or with "no" in
    either case followed by the end or by a character that is not a word
    character. *)
Definition word_char (ch : char) : bool := isalnum ch || bool_decide (ch = 95%N).
Definition starts_hash_or_no (h : str) : bool :=
  match h with
  | c0 :: rest =>
      bool_decide (c0 = hash) ||
      (bool_decide (c0 = 78%N ∨ c0 = 110%N) &&
       match rest with
       | c1 :: rest' =>
           bool_decide (c1 = 79%N ∨ c1 = 111%N) &&
           match rest' with
           | [] => true
           | c2 :: _ => negb (word_char c2)
           end
       | [] => false
       end)
  | [] => false
  end.

(** The two fall-backs of [find_idx]. *)
Definition number_header (h : str) : Prop :=
  strip h ∈ lit <$> ["#"; "No"; "No."; "NO"] ∨ starts_hash_or_no h.
Definition player_header (h : str) : Prop :=
  let hn := squeeze (lower h) in
  str_in (lit "player") hn ∨ str_in (lit "playername") hn ∨
  lower (strip h) ∈ lit <$> ["player"; "player name"; "playername"].

#[global] Instance number_header_dec h : Decision (number_header h).
Proof. unfold number_header. apply _. Defined.
#[global] Instance player_header_dec h : Decision (player_header h).
Proof. unfold player_header. apply _. Defined.

(** [find_idx]: the first header that matches the wanted column; for "#"
    and "Name" then the first header of the fall-back. *)
Definition first_match (col_name : str) (hdrs : list str) : option nat :=
  fst <$> list_find (header_matches (target_of col_name)) (header_norm <$> hdrs).

Definition find_idx (hdrs : list str) (col_name : str) : option nat :=
  match first_match col_name hdrs with
  | Some i => Some i
  | None =>
      if decide (col_name = lit "#") then fst <$> list_find number_header hdrs
      else if decide (col_name = lit "Name") then fst <$> list_find player_header hdrs
      else None
  end.

(** The cleaning of a non-empty name: of the stripped, non-empty lines the
    longest with a comma (the first of them), else the text without its
    leading digits, blanks and quotes; double quotes are removed. *)
Definition longest_with_comma (parts : list str) : str :=
  foldl (λ best p,
           if decide (comma ∈ p ∧ length best < length p) then p else best) [] parts.
Definition clean_name (raw : str) : str :=
  let parts :=
    strip <$> filter (λ p, strip p ≠ [])
                (split_on (λ ch, bool_decide (ch = LF ∨ ch = CR)) raw) in
  let name_candidate := longest_with_comma parts in
  let name_candidate :=
    if decide (name_candidate = [])
    then strip (drop_while (λ ch, isdecimal ch || isspace ch ||
                                   bool_decide (ch = quote ∨ ch = apostrophe)) raw)
    else name_candidate in
  strip (filter (λ ch, ch ≠ quote) name_candidate).

(** [normalize_and_write] *)
Definition value_of (hdrs : list str) (r : list str) (col : str) : str :=
  let raw :=
    match find_idx hdrs col with
    | Some idx => if decide (idx < length r) then default [] (r !! idx) else []
    | None => []
    end in
  if decide (col = lit "Name" ∧ raw ≠ []) then clean_name raw else raw.

Definition normalize_and_write (rws : list (list str)) (hdrs : list str) (year : Z) : list dict :=
  if decide (rws = [] ∨ hdrs = []) then []
  else
    (λ r, <[lit "Year" := Int year]>
            (foldl (λ d col, <[col := Str (value_of hdrs r col)]> d) ∅ DESIRED))
    <$> rws.

(** The loop of [main]: no handler around the rendering of a year. *)
Definition collect : M (list dict) :=
  for_ YEARS (λ year all_rows,
    let url := BASE_URL +:+ "/" +:+ pretty year in
    print ("Rendering " +:+ url);;
    tables ← extract_tables_with_playwright url;
    match find_defense_table_from_rendered (default [] tables) with
    | None =>
        print ("No defense table found for " +:+ url);; mret all_rows
    | Some (hdrs, rws) =>
        let parsed := normalize_and_write rws hdrs year in
        print ("Found " +:+ pretty (length parsed) +:+ " defensive rows for " +:+ pretty year);;
        mret (all_rows ++ parsed)
    end) [].

Definition main : M unit :=
  all_rows ← collect;
  if decide (all_rows = []) then print "No rows collected; nothing to append."
  else
    let cols := DESIRED ++ [lit "Year"] in
    let df := DataFrame all_rows in
    let df := select cols (add_missing cols df) in
    (* Overwrite the output CSV (do not append) *)
    to_csv df OUT_CSV W true;;
    print ("Wrote " +:+ pretty (length (records df)) +:+ " rows to " +:+ OUT_CSV).

End defense.
End fetch_defense.

(** ** scripts/record_game_results.py *)

Module record_game_results.
Import Py Script.

(** A row of the result table, as the dictionary [candidate] of
    [scrape_season]. *)
Record game := Game {
  date : str; opponent : str; site : str; result : str;
  score : str; duration : str; attendance : str;
}.

(** A row of a game-by-game team table. *)
Record team_row := TeamRow { t_date : str; t_opponent : str; numbers : list str }.

(** What the heuristics over the parsed HTML give for a page; their code
    reads the page through BeautifulSoup and regular expressions only. *)
Class Heuristics `{World} := {
  (** the candidate rows of [scrape_season], in page order, before the
      removal of duplicates: from the tables, else from the list items *)
  candidates : page → Z → answer (list game);
  (** [extract_team_game_stats]: the second header row and the data rows
      kept, when a suitable table is found *)
  team_stats_table : page → Z → answer (option (list str * list (list str)));
  (** [extract_team_offense]: the rows found *)
  team_offense_rows : page → Z → answer (list team_row);
}.

Record args := Args {
  year : option Z;
  start_year : Z;
  end_year : Z;
  csv : option string;
  extract_team_stats : bool;
  team_offense : bool;
  url_template : string;
}.

(** The defaults of the argument parser. *)
Definition default_args : args := {|
  year := None; start_year := 2012; end_year := 2025; csv := None;
  extract_team_stats := false; team_offense := false;
  url_template := "https://hurstathletics.com/sports/football/stats/{year}" |}.

Section games.
Context `{UnicodeData} `{World} `{!Heuristics}.
(** The directory above the one of the script. *)
Context (repo_root : string).

Definition by_date (a b : game) : bool := str_le (date a) (date b).

(** [scrape_season]: the candidates of the page, without the later rows of
    a (date, opponent) already seen, sorted by date. *)
Definition scrape_season (url : string) (y : Z) : M (list game) :=
  resp ← requests_get url;
  rows ← lift (candidates resp y);
  let unique := dedupe (λ r, (date r, opponent r)) ∅ rows in
  mret (sort by_date unique).

(** [scrape_years] *)
Definition scrape_years (start_year end_year : Z) (url_template : string) : M (list game) :=
  all_rows ← for_ (rangeZ start_year (end_year + 1)%Z) (λ y all_rows,
    let url := format_year url_template y in
    print ("Fetching " +:+ url +:+ " ...");;
    try_except
      (rows ← scrape_season url y;
       print ("  -> " +:+ pretty (length rows) +:+ " rows from " +:+ pretty y);;
       mret (all_rows ++ rows))
      (λ e, print ("  Failed " +:+ pretty y +:+ ": " +:+ e);; mret all_rows)) [];
  let unique := dedupe (λ r, (date r, opponent r, score r)) ∅ all_rows in
  mret (sort by_date unique).

(** [re.sub(r"\s+", " ", h.strip()).lower()] *)
Definition normalize_header (h : str) : str :=
  lower (squash isspace 32%N false (strip h)).

(** [extract_team_game_stats]: the per-year file has the date- and
    opponent-like columns first. *)
Definition is_front (h : str) : bool :=
  let n := normalize_header h in
  str_in (lit "date") n || str_in (lit "opp") n || str_in (lit "opponent") n
  || str_in (lit "team") n.

Definition extract_team_game_stats (url : string) (y : Z) : M (option string) :=
  resp ← requests_get url;
  found ← lift (team_stats_table resp y);
  match found with
  | None => mret None
  | Some (header_row, results) =>
      if decide (results = [] ∨ header_row = []) then mret None
      else
        let out_path := repo_root +:+ "/Season Stats/Team/team_game_stats_" +:+ pretty y +:+ ".csv" in
        let out_header := filter (λ h, is_front h) header_row
                          ++ filter (λ h, ¬ is_front h) header_row in
        let line (tds : list str) : list str :=
          let mapping : gmap str str := list_to_map (reverse (zip header_row tds)) in
          (λ h, default [] (mapping !! h)) <$> out_header in
        write_file out_path (Csv (out_header :: (line <$> results)));;
        mret (Some out_path)
  end.

(** [extract_team_offense] *)
Definition extract_team_offense (url : string) (y : Z) : M (list team_row) :=
  resp ← requests_get url;
  lift (team_offense_rows resp y).

(** [nums[:needed] + [''] * max(0, needed - len(nums))] *)
Definition fit (needed : nat) (nums : list str) : list str :=
  take needed nums ++ replicate (needed - length nums) [].

Definition offense_fields : list str := lit <$>
  ["date"; "opponent"; "att"; "yds"; "td"; "long"; "att"; "yds"; "td"; "long";
   "yds"; "td"; "long"; "att"; "yds"; "td"; "long"; "att"; "yds"; "td"; "long"].

Definition header : list str := lit <$>
  ["date"; "opponent"; "site"; "result"; "score"; "duration"; "attendance"].

Definition main (a : args) : M unit :=
  let csv_path :=
    match csv a with
    | Some p => if decide (p ≠ "") then p
                else repo_root +:+ "/Season Stats/Individual/game_results.csv"
    | None => repo_root +:+ "/Season Stats/Individual/game_results.csv"
    end in
  let '(start, end_) :=
    match year a with
    | Some y => if decide (y ≠ 0%Z) then (y, y) else (start_year a, end_year a)
    | None => (start_year a, end_year a)
    end in
  if extract_team_stats a then
    for_ (rangeZ start (end_ + 1)%Z) (λ y (_ : unit),
      let url := format_year (url_template a) y in
      print ("Extracting team game stats from " +:+ url +:+ " ...");;
      try_except
        (out ← extract_team_game_stats url y;
         match out with
         | Some out_path => print ("Wrote team game stats for " +:+ pretty y +:+ " -> " +:+ out_path)
         | None => print ("No suitable team table found for " +:+ pretty y)
         end)
        (λ e, print ("Failed " +:+ pretty y +:+ ": " +:+ e))) ()
  else if team_offense a then
    all_rows ← for_ (rangeZ start (end_ + 1)%Z) (λ y all_rows,
      let url := format_year (url_template a) y in
      print ("Extracting Team Offense from " +:+ url +:+ " ...");;
      try_except
        (rows ← extract_team_offense url y;
         print ("  -> " +:+ pretty (length rows) +:+ " rows from " +:+ pretty y);;
         mret (all_rows ++ rows))
        (λ e, print ("  Failed " +:+ pretty y +:+ ": " +:+ e);; mret all_rows)) [];
    let out_path := repo_root +:+ "/Season Stats/Team/game_offense.csv" in
    let needed := length offense_fields - 2 in
    write_file out_path
      (Csv (offense_fields ::
            ((λ r, [t_date r; t_opponent r] ++ fit needed (numbers r)) <$> all_rows)));;
    print ("Wrote " +:+ pretty (length all_rows) +:+ " rows to " +:+ out_path)
  else
    rows ← scrape_years start end_ (url_template a);
    write_file csv_path
      (Csv (header ::
            ((λ r, [date r; opponent r; site r; result r; score r; duration r; attendance r])
             <$> rows)));;
    print ("Wrote " +:+ pretty (length rows) +:+ " rows to " +:+ csv_path).

End games.
End record_game_results.

(** ** scripts/game_by_game_defense.py *)

Module game_by_game_defense.
Import Py Script.

Record team_row := TeamRow { t_date : str; t_opponent : str; numbers : list str }.

Class Heuristics `{World} := {
  (** [extract_defense_from_page(html, year)] *)
  extract_defense_from_page : page → Z → answer (list team_row);
}.

Record args := Args {
  year : option Z;
  start_year : Z;
  end_year : Z;
  csv : option string;
  url_template : string;
}.

Definition default_args : args := {|
  year := None; start_year := 2012; end_year := 2025; csv := None;
  url_template := "https://hurstathletics.com/sports/football/stats/{year}" |}.

Section gbg.
Context `{World} `{!Heuristics}.
Context (repo_root : string).

Definition scrape_year (y : Z) (url_template : string) : M (list team_row) :=
  let url := format_year url_template y in
  resp ← requests_get url;
  lift (extract_defense_from_page resp y).

Definition header : list str := lit <$>
  ["date"; "opponent"; "Solo"; "aST"; "TOT"; "TFL"; "YDS"; "TOT"; "YDS"; "FF";
   "FR"; "YDS"; "TOT"; "YDS"; "QBH"; "Pass Brup"; "Blkd Kick"; "SAF"].

Definition fit (needed : nat) (nums : list str) : list str :=
  take needed nums ++ replicate (needed - length nums) [].

Definition main (a : args) : M unit :=
  let out_path :=
    match csv a with
    | Some p => if decide (p ≠ "") then p
                else repo_root +:+ "/Season Stats/Team/game_defense.csv"
    | None => repo_root +:+ "/Season Stats/Team/game_defense.csv"
    end in
  let '(start, end_) :=
    match year a with
    | Some y => if decide (y ≠ 0%Z) then (y, y) else (start_year a, end_year a)
    | None => (start_year a, end_year a)
    end in
  all_rows ← for_ (rangeZ start (end_ + 1)%Z) (λ y all_rows,
    try_except
      (print ("Fetching " +:+ pretty y +:+ "...");;
       rows ← scrape_year y (url_template a);
       print ("  -> " +:+ pretty (length rows) +:+ " rows from " +:+ pretty y);;
       mret (all_rows ++ rows))
      (λ e, print ("Failed " +:+ pretty y +:+ ": " +:+ e);; mret all_rows)) [];
  let needed := length header - 2 in
  write_file out_path
    (Csv (header ::
          ((λ r, [t_date r; t_opponent r] ++ fit needed (numbers r)) <$> all_rows)));;
  print ("Wrote " +:+ pretty (length all_rows) +:+ " rows to " +:+ out_path).

End gbg.
End game_by_game_defense.

(** ** scripts/fetch_receiving.py, fetch_punting.py, fetch_kickoffs.py,
       fetch_kickoff_returns.py, fetch_field_goals.py

    The five scripts are copies of one another: [fetch_year] requests the
    page of the year, finds the table and parses its rows, and [main] loops
    over the years, builds a DataFrame and writes it.  They differ in the
    constants collected in [script] and in how they pick the table and the
    cells ([find_table], [parse_table]), which is left to [table_rows]. *)

Module fetch_special.
Import Py Script.

Record script := Script {
  name : string;
  BASE_URL : string;
  OUT_PATH : string;
  YEARS : list Z;
  WANTED : option (list str);   (* the constant of that name, if the script has it *)
  year_key : string;            (* the key under which [fetch_year] stores the year *)
  cols : list str;              (* the list [cols] of [main] *)
  appends : bool;               (* [mode='a'] with a header only for a new file *)
  what : string;                (* the word in "No ... table found for" *)
}.

Definition fetch_receiving : script := {|
  name := "fetch_receiving.py";
  BASE_URL := "https://hurstathletics.com/sports/football/stats/{year}";
  OUT_PATH := "Season Stats/Offense/Receiving/all_mercyhurst_receiving.csv";
  YEARS := rangeZ 2012 2026;
  WANTED := Some (lit <$> ["#"; "Name"; "GP"; "NO"; "YDS"; "AVG"; "TD"; "LONG"; "AVG/G"]);
  year_key := "year";
  cols := lit <$> ["year"; "#"; "Name"; "GP"; "NO"; "yds"; "avg"; "td"; "long"; "AVG/G"];
  appends := true;
  what := "receiving" |}.

Definition fetch_punting : script := {|
  name := "fetch_punting.py";
  BASE_URL := "https://hurstathletics.com/sports/football/stats/{year}";
  OUT_PATH := "Season Stats/Special Teams/all_mercyhurst_punting.csv";
  YEARS := rangeZ 2012 2026;
  WANTED := Some (lit <$> ["#"; "Name"; "GP"; "NO"; "YDS"; "AVG"; "Long"; "TB"; "I20"; "50+"; "Year"]);
  year_key := "Year";
  cols := lit <$> ["#"; "Name"; "GP"; "NO"; "YDS"; "AVG"; "Long"; "TB"; "I20"; "50+"; "BLK"; "Year"];
  appends := false;
  what := "punting" |}.

Definition fetch_kickoffs : script := {|
  name := "fetch_kickoffs.py";
  BASE_URL := "https://hurstathletics.com/sports/football/stats/{year}";
  OUT_PATH := "Season Stats/Special Teams/all_mercyhurst_kickoffs.csv";
  YEARS := rangeZ 2012 2026;
  WANTED := None;
  year_key := "Year";
  cols := lit <$> ["#"; "Name"; "NO"; "YDS"; "AVG"; "TB"; "OB"; "Year"];
  appends := false;
  what := "kickoff" |}.

Definition fetch_kickoff_returns : script := {|
  name := "fetch_kickoff_returns.py";
  BASE_URL := "https://hurstathletics.com/sports/football/stats/{year}";
  OUT_PATH := "Season Stats/Individual/Special Teams/mercyhurst_kickoff_return.csv";
  YEARS := rangeZ 2012 2026;
  WANTED := None;
  year_key := "Year";
  cols := lit <$> ["Name"; "NO"; "YDS"; "AVG"; "TD"; "Long"; "Year"];
  appends := false;
  what := "kickoff-return" |}.

Definition fetch_field_goals : script := {|
  name := "fetch_field_goals.py";
  BASE_URL := "https://hurstathletics.com/sports/football/stats/{year}";
  OUT_PATH := "Season Stats/Special Teams/all_mercyhurst_field_goals.csv";
  YEARS := rangeZ 2012 2026;
  WANTED := None;
  year_key := "Year";
  cols := lit <$> ["#"; "Name"; "FGM-FGA"; "%"; "I20"; "20-29"; "30-39"; "40-49"; "50+"; "Long"; "BLK"; "Year"];
  appends := false;
  what := "field-goal" |}.

Definition all : list script :=
  [fetch_receiving; fetch_punting; fetch_kickoffs; fetch_kickoff_returns; fetch_field_goals].

Class Heuristics `{World} := {
  (** [find_table] then [parse_table] on the parsed page: [None] when no
      table is found, else the entries, one dictionary per player row *)
  table_rows : script → page → answer (option (list dict));
}.

Section special.
Context `{World} `{!Heuristics}.

Definition fetch_year (s : script) (year : Z) : M (list dict) :=
  let url := format_year (BASE_URL s) year in
  print ("Fetching " +:+ url);;
  r ← requests_get url;
  found ← lift (table_rows s r);
  match found with
  | None =>
      print ("No " +:+ what s +:+ " table found for " +:+ pretty year);; mret []
  | Some rows => mret (<[lit (year_key s) := Int year]> <$> rows)
  end.

Definition collect (s : script) : M (list dict) :=
  for_ (YEARS s) (λ year all_rows,
    try_except
      (rows ← fetch_year s year;
       print ("Found " +:+ pretty (length rows) +:+ " rows for " +:+ pretty year);;
       mret (all_rows ++ rows))
      (λ e, print ("Error fetching " +:+ pretty year +:+ ": " +:+ e);; mret all_rows)) [].

Definition main (s : script) : M unit :=
  all_rows ← collect s;
  if decide (all_rows = []) then print "No data collected."
  else
    let df := DataFrame all_rows in
    let df := select (cols s) (add_missing (cols s) df) in
    if appends s then
      existed ← path_exists (OUT_PATH s);
      let write_header := negb existed in
      to_csv df (OUT_PATH s) A write_header;;
      print ("Appended " +:+ pretty (length (records df)) +:+ " rows to " +:+ OUT_PATH s)
    else
      to_csv df (OUT_PATH s) W true;;
      print ("Wrote " +:+ pretty (length (records df)) +:+ " rows to " +:+ OUT_PATH s).

End special.
End fetch_special.

(** ** [parse_table] of the five special-teams scripts

    fetch_receiving.py, fetch_punting.py, fetch_kickoffs.py,
    fetch_kickoff_returns.py and fetch_field_goals.py have the same
    [normalize_header], [find_index], [get_by_keys] and [clean_name]; they
    differ in the entry they build, in the words that mark a header-like
    row and in whether total rows are skipped, collected in [layout].  A
    row of the table is the list of the texts of its cells. *)

Module special_tables.
Import Py Script.

Record layout := Layout {
  (** the keys of [entry], each with the list given to [get_by_keys] *)
  fields : list (string * list string);
  (** the tuple of the header-like test *)
  header_words : list string;
  (** whether rows of totals, team and opponents are skipped *)
  skips_totals : bool;
}.

Definition fetch_receiving : layout := {|
  fields :=
    [("#", ["#"; "NO"; "NUMBER"]); ("Name", ["NAME"; "PLAYER"]); ("GP", ["GP"; "G"]);
     ("NO", ["NO"; "REC"; "REC."]); ("yds", ["YDS"; "YDS."]); ("avg", ["AVG"]);
     ("td", ["TD"]); ("long", ["LONG"; "LG"]); ("AVG/G", ["AVG/G"; "AVG/G."])];
  header_words := ["PLAYER"; "RECEIVING"];
  skips_totals := false |}.

Definition fetch_punting : layout := {|
  fields :=
    [("#", ["#"; "NO"; "NUMBER"]); ("Name", ["NAME"; "PLAYER"]);
     ("GP", ["GP"; "G"; "Games"; "Games Played"]); ("NO", ["NO"]); ("YDS", ["YDS"]);
     ("AVG", ["AVG"]); ("Long", ["Long"]); ("TB", ["TB"]); ("I20", ["I20"]);
     ("50+", ["50+"]); ("BLK", ["BLK"; "BLKD"])];
  header_words := ["PLAYER"; "Punt"];
  skips_totals := true |}.

Definition fetch_kickoffs : layout := {|
  fields :=
    [("#", ["#"; "NO"; "NUMBER"]); ("Name", ["NAME"; "PLAYER"]); ("NO", ["NO"]);
     ("YDS", ["YDS"]); ("AVG", ["AVG"]); ("TB", ["TB"]);
     ("OB", ["OB"; "O.B."; "OUT"; "OUT-OF-BOUNDS"])];
  header_words := ["PLAYER"; "KICKOFF"];
  skips_totals := true |}.

Definition fetch_kickoff_returns : layout := {|
  fields :=
    [("Name", ["NAME"; "PLAYER"]); ("NO", ["NO"]); ("YDS", ["YDS"]); ("AVG", ["AVG"]);
     ("TD", ["TD"]); ("Long", ["LONG"; "LONG."])];
  header_words := ["PLAYER"; "KICKOFF RETURN"];
  skips_totals := true |}.

Definition fetch_field_goals : layout := {|
  fields :=
    [("#", ["#"; "NO"; "NUMBER"]); ("Name", ["NAME"; "PLAYER"]);
     ("FGM-FGA", ["FGM-FGA"; "FGM"; "FGM-FGA."]); ("%", ["%"; "PCT"; "FG%"; "FG PCT"]);
     ("I20", ["I20"]); ("20-29", ["20-29"]); ("30-39", ["30-39"]); ("40-49", ["40-49"]);
     ("50+", ["50+"]); ("Long", ["Long"]); ("BLK", ["BLK"; "BLKD"])];
  header_words := ["PLAYER"; "FIELD GOAL"; "FIELD-GOAL"];
  skips_totals := true |}.

Definition all : list layout :=
  [fetch_receiving; fetch_punting; fetch_kickoffs; fetch_kickoff_returns; fetch_field_goals].

Definition totals_words : list string :=
  ["total"; "totals"; "team"; "opponent"; "opponents"; "opp"].

(** The line boundaries of [str.splitlines]. *)
Definition line_boundary (c : char) : bool :=
  bool_decide (c ∈ [10; 11; 12; 13; 28; 29; 30; 133; 8232; 8233]%N).

(** [s.splitlines()]: the lines without their ends; a carriage return
    followed by a line feed is one line end ([after_cr] says that the
    character before was a carriage return that ended a line). *)
Fixpoint splitlines_go (after_cr : bool) (s : str) : list str :=
  match s with
  | [] => []
  | c :: s' =>
      if after_cr && bool_decide (c = 10%N) then splitlines_go false s'
      else if line_boundary c then [] :: splitlines_go (bool_decide (c = 13%N)) s'
      else match splitlines_go false s' with
           | [] => [[c]]
           | p :: ps => (c :: p) :: ps
           end
  end.
Definition splitlines (s : str) : list str := splitlines_go false s.

Section parse.
Context `{UnicodeData}.

(** [normalize_header]:
<<
    if not h: return ""
    return h.strip().upper().replace('\xa0', ' ')
>> *)
Definition normalize_header (h : str) : str :=
  if decide (h = []) then []
  else replace [160%N] [32%N] (upper (strip h)).

(** [{normalize_header(h): i for i, h in enumerate(headers)}]: a later
    header with the same normal form takes the place of an earlier one. *)
Definition idx_map (headers : list str) : gmap str nat :=
  foldl (λ m ih, <[normalize_header ih.2 := ih.1]> m) ∅ (imap pair headers).

(** [find_index] *)
Fixpoint find_index (headers : list str) (possible : list str) : option nat :=
  match possible with
  | [] => None
  | p :: rest =>
      match idx_map headers !! normalize_header p with
      | Some i => Some i
      | None => find_index headers rest
      end
  end.

(** [get_by_keys] *)
Definition get_by_keys (headers cols : list str) (keys : list str) : str :=
  match find_index headers keys with
  | Some i => if decide (length cols ≤ i) then [] else default [] (cols !! i)
  | None => []
  end.

(** [clean_name]:
<<
    if not raw: return ''
    parts = [p.strip() for p in raw.splitlines() if p.strip()]
    for p in parts:
        if ',' in p: return p
    return parts[0] if parts else raw
>> *)
Definition clean_name (raw : str) : str :=
  if decide (raw = []) then []
  else
    let parts := strip <$> filter (λ p, strip p ≠ []) (splitlines raw) in
    match list_find (λ p, 44%N ∈ p) parts with
    | Some (_, p) => p
    | None => default raw (head parts)
    end.

(** The dictionary [entry] of a row; the value of "Name" goes through
    [clean_name]. *)
Definition value (headers cols : list str) (f : string * list string) : str :=
  let v := get_by_keys headers cols (lit <$> f.2) in
  if decide (f.1 = "Name") then clean_name v else v.

Definition entry (L : layout) (headers cols : list str) : dict :=
  list_to_map ((λ f, (lit f.1, Str (value headers cols f))) <$> fields L).

(** The body of the loop over the rows: [None] when the row is skipped. *)
Definition header_like (L : layout) (cols : list str) : Prop :=
  Exists (λ c, normalize_header c ∈ lit <$> header_words L) cols.

Definition is_totals (e : dict) : bool :=
  let name := get e "Name" in
  let name_l := if decide (name = []) then [] else lower name in
  existsb (λ tok, str_in (lit tok) name_l) totals_words.

Definition parse_row (L : layout) (headers : list str) (tr : list str) : option dict :=
  let cols := strip <$> tr in
  if decide (cols = [] ∨ Forall (λ c, c = []) cols) then None
  else if decide (header_like L cols) then None
  else
    let e := entry L headers cols in
    if skips_totals L && is_totals e then None else Some e.

(** [parse_table] on the headers [find_table] returned and the rows of the
    table body. *)
Definition parse_table (L : layout) (headers : list str) (trs : list (list str)) : list dict :=
  omap (parse_row L headers) trs.

End parse.
End special_tables.

(** ** scripts/fix_rushing_td.py *)

Module fix_rushing_td.
Import Py Script.

Definition YEARS : list Z := rangeZ 2012 2026.
Definition BASE : string := "https://hurstathletics.com/sports/football/stats/".

Class Heuristics `{World} := {
  (** the (name, TD) pairs of the rushing table of a page, as the pandas or
      the BeautifulSoup path of [scrape_year] finds them *)
  player_tds : page → answer (list (str * cell));
}.

Section fix_td.
Context `{UnicodeData} `{World} `{!Heuristics}.

(** [norm]: quotes out, white space squeezed, stripped, lower case, digits
    out, then only the characters of [a-z, -] kept. *)
Definition norm (name : str) : str :=
  let s := filter (λ ch, ch ≠ 34%N ∧ ch ≠ 39%N) name in
  let s := squash isspace 32%N false s in
  let s := lower (strip s) in
  let s := filter (λ ch, ¬ isdecimal ch) s in
  filter (λ ch, ascii_islower ch ∨ ch = 44%N ∨ ch = 32%N ∨ ch = 45%N) s.

(** [swap_comma]: "Last, First" becomes "First Last" *)
Definition swap_comma (name : str) : str :=
  match split_first 44%N name with
  | Some (a, b) => strip (strip b ++ [32%N] ++ strip a)
  | None => name
  end.

(** [scrape_year]: the page through the headless browser, else through
    [requests]; the mapping from normalised name to TD. *)
Definition scrape_year (year : Z) : M (gmap str cell) :=
  let url := BASE +:+ pretty year in
  html ← try_except
            (if playwright_installed then r ← page_goto url; mret r.1
             else raise "No module named 'playwright'")
            (λ _, requests_get url);
  pairs ← lift (player_tds html);
  mret (foldl (λ mapping p, <[norm (swap_comma p.1) := p.2]> (<[norm p.1 := p.2]> mapping))
              ∅ pairs).

Definition build_td_map : M (gmap (str * str) cell) :=
  for_ YEARS (λ y td_map,
    try_except
      (m ← scrape_year y;
       print ("Scraped " +:+ pretty (size m) +:+ " names for " +:+ pretty y);;
       mret (map_fold (λ k v acc, <[(k, lit (pretty y)) := v]> acc) td_map m))
      (λ e, print ("Failed to scrape " +:+ pretty y +:+ ": " +:+ e);; mret td_map)) ∅.

Definition out_cols : list str := lit <$>
  ["No"; "Name"; "GP"; "ATT"; "Net"; "AVG"; "TD"; "Long"; "AVG/G"; "Year"].

(** [row.get(k, d)] on a row of a DataFrame *)
Definition row_get (row : dict) (k : string) (d : cell) : cell :=
  default d (row !! lit k).

Definition out_row (td_map : gmap (str * str) cell) (y : Z) (row : dict) : dict :=
  let Name := row_get row "Name" (Str []) in
  let year := row_get row "Year" (Int y) in
  let td_new :=
    match td_map !! (norm (render Name), render year) with
    | Some v => Some v
    | None => td_map !! (norm (swap_comma (render Name)), render year)
    end in
  list_to_map
    [(lit "No", row_get row "No" (Str []));
     (lit "Name", Name);
     (lit "GP", row_get row "GP" (Str []));
     (lit "ATT", row_get row "ATT" (Str []));
     (lit "Net", row_get row "Net" (Str []));
     (lit "AVG", row_get row "AVG" (row_get row "avg" (Str [])));
     (lit "TD", default (Str []) td_new);
     (lit "Long", row_get row "Long" (Str []));
     (lit "AVG/G", row_get row "AVG/G" (Str []));
     (lit "Year", year)].

Definition main : M unit :=
  td_map ← build_td_map;
  out_rows ← for_ YEARS (λ y out_rows,
    let path := "mercyhurst_rushing_" +:+ pretty y +:+ ".csv" in
    try_except
      (df ← read_csv path;
       let recs : list dict :=
         (λ r : dict, (kmap (λ c : str, strip c) r : dict)) <$> records df in
       mret (out_rows ++ (out_row td_map y <$> recs)))
      (λ _, print ("Missing or unreadable " +:+ path +:+ ", skipping");; mret out_rows)) [];
  let out_df := Frame (if decide (out_rows = []) then [] else out_cols) out_rows in
  to_csv out_df "all_mercyhurst_rushing.csv" W true;;
  print "Wrote all_mercyhurst_rushing.csv".

End fix_td.
End fix_rushing_td.

(** ** Season_stats/Individual/Offense/Passing/passing records.py and
       Season_stats/Individual/Offense/Rushing/all_time_season_rushing.py

    The rushing script is the passing script with another table picked from
    the page and a block, between the Year column and the saving of the
    file, that selects and converts the rushing columns; the block works on
    floating-point numbers and is left to [rushing_columns]. *)

Module season_stats.
Import Py Script.

Inductive which := Passing | Rushing.

Definition URL : string := "https://hurstathletics.com/sports/football/stats/2025".
Definition BASE_URL : string := "https://hurstathletics.com/sports/football/stats".

Inductive format := csv_format | json_format.

Record args := Args {
  url : string;
  year : option Z;
  list_years : bool;
  start_year : Z;
  end_year : Z;
  output : string;
  fmt : format;
  append_to : option string;
  append_years : bool;
}.

Definition default_args (w : which) : args := {|
  url := URL; year := None; list_years := false;
  start_year := 2012; end_year := 2025;
  output := match w with
            | Passing => "mercyhurst_passing_2025.csv"
            | Rushing => "mercyhurst_rushing_2025.csv"
            end;
  fmt := csv_format; append_to := None; append_years := false |}.

Class Heuristics `{World} := {
  (** the table [scrape_passing] or [scrape_rushing] returns for a page;
      an empty frame when none is found *)
  stat_table : which → page → answer frame;
  (** [name_pattern.findall(s)] *)
  findall_names : str → list str;
  (** [re.search(r"/(\d{4})/?$", url)], as the integer of group 1 *)
  url_year : string → option Z;
  (** lines 214-285 of the rushing script *)
  rushing_columns : frame → frame;
  (** the years of the column Year of a master file, for
      [set(pd.read_csv(master)['Year'].dropna().astype(int).unique())] *)
  years_of : frame → answer (list Z);
}.

Section season.
Context `{UnicodeData} `{World} `{!Heuristics}.
Context (w : which).

(** [df.empty] *)
Definition empty (df : frame) : bool :=
  bool_decide (columns df = [] ∨ records df = []).

Definition scrape (url : string) : M frame :=
  r ← requests_get url;
  lift (stat_table w r).

(** [check_year] *)
Definition check_year (y : Z) : M bool :=
  let url := BASE_URL +:+ "/" +:+ pretty y in
  ok ← (try_except (requests_get url;; mret true) (λ _, mret false) : M bool);
  if (ok : bool) then df ← scrape url; mret (negb (empty df))
  else mret false.

(** [list_available_years] *)
Definition list_available_years (start end_ : Z) : M (list Z) :=
  for_ (rangeZ start (end_ + 1)%Z) (λ y years,
    ok ← check_year y;
    mret (if (ok : bool) then years ++ [y] else years)) [].

(** [df.drop(columns=drop_cols)] *)
Definition drop_columns (drop_cols : list str) (df : frame) : frame :=
  Frame (filter (λ c, c ∉ drop_cols) (columns df))
        (filter (λ kv, kv.1 ∉ drop_cols) <$> records df).

(** [extract_name] *)
Definition extract_name (c : cell) : cell :=
  let s := render c in
  match last (findall_names s) with
  | Some m => Str (strip m)
  | None => Str (strip (filter (λ ch, ¬ isdecimal ch) s))
  end.

(** The cleaning shared by the single page and by each appended year: the
    labels stripped, the bio and link columns dropped, the names of the
    player column extracted. *)
Definition mentions (k : string) (c : str) : bool := str_in (lit k) (lower c).

Definition player_column (df : frame) : option str :=
  match head (filter (λ c, mentions "player" c ∨ mentions "name" c) (columns df)) with
  | Some c => Some c
  | None => columns df !! 1
  end.

Definition clean (df : frame) : frame :=
  let df := Frame (strip <$> columns df)
                  ((λ r : dict, (kmap (λ c : str, strip c) r : dict)) <$> records df) in
  let drop_cols := filter (λ c, mentions "bio" c ∨ mentions "link" c) (columns df) in
  let df := if decide (drop_cols ≠ []) then drop_columns drop_cols df else df in
  match player_column df with
  | Some c =>
      Frame (columns df)
            ((λ r : dict, (<[c := extract_name (default NaN (r !! c))]> r : dict)) <$> records df)
  | None => df
  end.

(** The alignment to the columns of an existing master file:
<<
    existing_cols = list(pd.read_csv(master, nrows=0).columns)
    for c in existing_cols:
        if c not in df.columns: df[c] = ''
    new_cols = [c for c in df.columns if c not in existing_cols]
    df = df[existing_cols + new_cols]
>>
    inside [try: ... except Exception: pass]. *)
Definition align (master : string) (df : frame) : M frame :=
  try_except
    (existing_cols ← read_csv_columns master;
     let df := add_missing existing_cols df in
     let new_cols := filter (λ c, c ∉ existing_cols) (columns df) in
     mret (select (existing_cols ++ new_cols) df))
    (λ _, mret df).

(** The appending of a frame to the master file. *)
Definition append_master (master : string) (df : frame) : M unit :=
  existed ← path_exists master;
  let write_header := negb existed in
  df ← (if existed then align master df else mret df);
  to_csv df master A write_header.

Definition main (a : args) : M unit :=
  if list_years a then
    years ← list_available_years (start_year a) (end_year a);
    if decide (years ≠ []) then
      print_str (join (lit (String (Ascii.ascii_of_nat 10) ""))
                      ((λ y : Z, lit (pretty y)) <$> years));;
      sys_exit 0
    else
      print "No years found in the specified range.";; sys_exit 1
  else
    let url :=
      match year a with
      | Some y => if decide (y ≠ 0%Z) then BASE_URL +:+ "/" +:+ pretty y else url a
      | None => url a
      end in
    df ← scrape url;
    if empty df then
      print (match w with
             | Passing => "No passing table found on the page."
             | Rushing => "No rushing table found on the page."
             end);;
      sys_exit 2
    else
      let df := clean df in
      let year_val :=
        match year a with
        | Some y => if decide (y ≠ 0%Z) then Some y else url_year url
        | None => url_year url
        end in
      let df := match year_val with
                | Some y => set_column (lit "Year") (Int y) df
                | None => df
                end in
      let df := match w with Passing => df | Rushing => rushing_columns df end in
      match fmt a with
      | csv_format => to_csv df (output a) W true
      | json_format => to_json df (output a)
      end;;
      print ("Saved " +:+ output a);;
      match append_to a with
      | Some master =>
          append_master master df;;
          print ("Appended to " +:+ master)
      | None => mret ()
      end;;
      if append_years a then
        match append_to a with
        | None =>
            print "--append-years requires --append-to to be specified";; sys_exit 3
        | Some master =>
            years ← list_available_years (start_year a) (end_year a);
            if decide (years = []) then
              print "No available years found to append.";; sys_exit 0
            else
              existed ← (path_exists master : M bool);
              existing_years ←
                ((if (existed : bool)
                  then try_except (m ← read_csv master; lift (years_of m)) (λ _, mret [])
                  else mret []) : M (list Z));
              let to_add := filter (λ y, y ∉ existing_years) years in
              if decide (to_add = []) then
                print "No new years to append. Master already contains them.";;
                sys_exit 0
              else
                for_ to_add (λ y (_ : unit),
                  print ("Fetching and appending year " +:+ pretty y);;
                  try_except
                    (df_y ← scrape (BASE_URL +:+ "/" +:+ pretty y);
                     if empty df_y then print ("No data for " +:+ pretty y)
                     else
                       let df_y := set_column (lit "Year") (Int y) (clean df_y) in
                       append_master master df_y;;
                       print ("Appended year " +:+ pretty y))
                    (λ e, print ("Error fetching/appending " +:+ pretty y +:+ " " +:+ e))) ()
        end
      else mret ().

End season.
End season_stats.

(** ** scripts/clean_scoring.py *)

Module clean_scoring.
Import Py Script CollapseDup.

Definition IN_PATH : string :=
  "/workspaces/Football-Internship/Season Stats/Offense/all_mercyhurst_scoring.csv".
Definition STAT_COLS : list str := lit <$>
  ["TD"; "FG"; "SAF"; "KICK"; "RUSH"; "RCV"; "PASS"; "DXP"; "PTS"].

Class Regex := {
  (** [re.search(r"-?\d+", s)], group 0 *)
  search_number : str → option str;
  (** [re.search(r"\b(\d{1,3})\b", s)], group 1 *)
  search_small_int : str → option str;
}.

Section clean_scoring.
Context `{UnicodeData} `{World} `{!Regex}.

(** [extract_first_number] *)
Definition extract_first_number (s : str) : str := default [] (search_number s).

(** [df.at[i, c] = v] on the row [i]: the value is set, and the column is
    added to the frame when it is new. *)
Definition set_at (c : str) (v : str) (acc : list str * dict) : list str * dict :=
  (if decide (c ∈ acc.1) then acc.1 else acc.1 ++ [c], <[c := Str v]> acc.2).

(** The body of the loop of [clean] on one row; [row] is the row as read,
    the updates go to the frame. *)
Definition clean_row (cols : list str) (row : dict) : list str * dict :=
  let values := csv_line cols row in
  let name_candidate :=
    foldl (λ best val,
             if decide ((44%N ∈ val ∧ existsb isalpha val) ∧ length best < length val)
             then val else best) [] values in
  let name := collapse_dup_name name_candidate in
  let acc := (cols, row) in
  let acc := if decide (name ≠ []) then set_at (lit "Name") name acc else acc in
  let jersey := extract_first_number (get row "#") in
  let jersey :=
    if decide (jersey ≠ []) then jersey
    else default [] (head (omap search_small_int values)) in
  let acc := set_at (lit "#") jersey acc in
  foldl (λ acc sc, set_at sc (extract_first_number (render (default (Str []) (row !! sc)))) acc)
        acc STAT_COLS.

Definition clean : M unit :=
  df ← read_csv_str IN_PATH;
  let '(cols, recs) :=
    foldl (λ acc row,
             let '(cols', row') := clean_row acc.1 row in (cols', acc.2 ++ [row']))
          (columns df, []) (records df) in
  to_csv (Frame cols recs) IN_PATH W true;;
  print ("Cleaned CSV written to " +:+ IN_PATH).

End clean_scoring.
End clean_scoring.

(** ** Paths *)

Module Path.

(** The components of a path, and the order [sorted] uses on paths. *)
Fixpoint parts_go (cur : string) (p : string) : list string :=
  match p with
  | EmptyString => [String.rev cur]
  | String c rest =>
      if Ascii.eqb c (Ascii.ascii_of_nat 47) then String.rev cur :: parts_go "" rest
      else parts_go (String c cur) rest
  end.
Definition parts (p : string) : list string := parts_go "" p.

Fixpoint parts_le (a b : list string) : bool :=
  match a, b with
  | [], _ => true
  | _ :: _, [] => false
  | x :: a', y :: b' =>
      match String.compare x y with
      | Lt => true
      | Gt => false
      | Eq => parts_le a' b'
      end
  end.
Definition le (p q : string) : bool := parts_le (parts p) (parts q).

(** [p] lies below the directory [dir] and its name ends in [suffix]: what
    [dir.rglob('*' + suffix)] lists. *)
Definition ends_with (suffix p : string) : bool :=
  String.prefix (String.rev suffix) (String.rev p).
Definition below (dir p : string) : bool := String.prefix (dir +:+ "/") p.

(** [p.with_suffix(new)] for a path that ends in [old], and [p.stem] *)
Definition with_suffix (old new p : string) : string :=
  String.substring 0 (String.length p - String.length old) p +:+ new.
Definition stem (suffix p : string) : string :=
  let name := default "" (last (parts p)) in
  String.substring 0 (String.length name - String.length suffix) name.

End Path.

(** ** scripts/xlsx_to_sqlite.py *)

Module xlsx_to_sqlite.
Import Py Script.

Definition BASE_DIR : string := "Excel and DB Files".

Section xlsx.
Context `{UnicodeData} `{World}.

(** [sanitize]: runs of white space and every character outside
    [0-9A-Za-z_] become an underscore; the empty name is "table"; a leading
    digit gets an underscore in front. *)
Definition sanitize (name : str) : str :=
  let name := squash isspace 95%N false name in
  let name := (λ ch, if ascii_isalnum ch || bool_decide (ch = 95%N) then ch else 95%N) <$> name in
  match name with
  | [] => lit "table"
  | c :: _ => if isdigit c then 95%N :: name else name
  end.

(** [df.to_sql(table_name, conn, index=False, if_exists='replace')] *)
Definition to_sql_replace (t : str) (df : frame) (tables : list (str * frame))
    : list (str * frame) :=
  filter (λ kv, kv.1 ≠ t) tables ++ [(t, df)].

(** [pd.read_excel(path, sheet_name=None)] *)
Definition read_excel (path : string) : M (list (string * frame)) := λ st,
  let st' := State (trace st ++ [Read path XLSX]) (files st) in
  match files st !! path with
  | Some (Xlsx sheets) => (Return sheets, st')
  | Some _ => (Raise "File is not a zip file", st')
  | None => (Raise "No such file or directory", st')
  end.

(** The tables of the database file at [path]; [sqlite3.connect] creates the
    database when the file is missing. *)
Definition connect (path : string) : M (list (str * frame)) := λ st,
  match files st !! path with
  | Some (Sqlite tables) => (Return tables, st)
  | Some _ => (Raise "file is not a database", st)
  | None => (Return [], st)
  end.

Definition convert_file (xlsx_path : string) : M unit :=
  let filebase := sanitize (lit (Path.stem ".xlsx" xlsx_path)) in
  let db_path := Path.with_suffix ".xlsx" ".db" xlsx_path in
  sheets ← read_excel xlsx_path;
  tables ← connect db_path;
  let named :=
    imap (λ i (sh : string * frame),
            (if decide (i = 0) then filebase
             else sanitize (filebase ++ lit "_" ++ lit sh.1), sh.2)) sheets in
  let tables := foldl (λ tables nf, to_sql_replace nf.1 nf.2 tables) tables named in
  write_file db_path (Sqlite tables);;
  print_str (lit "Converted: " ++ lit xlsx_path ++ lit " -> " ++ lit db_path ++ lit " | tables: "
             ++ join (lit ", ") (named.*1)).

Definition main : M Z := λ st,
  let found := filter (λ p, Path.below BASE_DIR p) ((map_to_list (files st)).*1) in
  let xlsx := filter (λ p, Path.ends_with ".xlsx" p) found in
  (if decide (found = []) then
     (* the base directory exists when it holds a file *)
     print ("Base directory not found: " +:+ BASE_DIR);; mret 1%Z
   else if decide (xlsx = []) then
     print "No .xlsx files found under 'Excel and DB Files'.";; mret 0%Z
   else
     for_ xlsx (λ f (_ : unit),
       try_except (convert_file f)
         (λ e, print ("Failed to convert " +:+ f +:+ ": " +:+ e))) ();;
     mret 0%Z) st.

End xlsx.
End xlsx_to_sqlite.

(** ** scripts/merge_to_single_db.py *)

Module merge_to_single_db.
Import Py Script.

Definition BASE_DIR : string := "Excel and DB Files".
Definition OUT_DIR : string := BASE_DIR +:+ "/DB files".
Definition OUT_DB : string := OUT_DIR +:+ "/all_tables.db".

Section merge.
Context `{World}.

(** A connection to the database file at [db_path], for reading: the tables
    of the file. *)
Definition open_db (db_path : string) : M (list (str * frame)) := λ st,
  let st' := State (trace st ++ [Read db_path SQLITE]) (files st) in
  match files st !! db_path with
  | Some (Sqlite tables) => (Return tables, st')
  | _ => (Raise "file is not a database", st')
  end.

(** [gather_tables]: the names in [sqlite_master] *)
Definition gather_tables (db_path : string) : M (list str) :=
  tables ← open_db db_path; mret (tables.*1).

(** [df.to_sql(t, out_conn, index=False, if_exists='fail')] on the output
    database.  Table names are compared as the script compares them, as
    Python strings. *)
Definition to_sql_fail (t : str) (df : frame) : M unit := λ st,
  let out := match files st !! OUT_DB with
             | Some (Sqlite tables) => tables
             | _ => []
             end in
  if decide (t ∈ out.*1) then (Raise "Table already exists.", st)
  else write_file OUT_DB (Sqlite (out ++ [(t, df)])) st.

(** The source databases: the .db files below the base directory other
    than the output, sorted. *)
Definition src_dbs_of (fs : gmap string file) : list string :=
  sort Path.le
    (filter (λ p, Path.below BASE_DIR p ∧ Path.ends_with ".db" p ∧ p ≠ OUT_DB)
            ((map_to_list fs).*1)).

(** [table_map.setdefault(t, []).append(db)] *)
Definition record_table (db : string) (table_map : gmap str (list string)) (t : str)
    : gmap str (list string) :=
  <[t := default [] (table_map !! t) ++ [db]]> table_map.

Definition main : M Z := λ st,
  let src_dbs := src_dbs_of (files st) in
  (if decide (src_dbs = []) then
     print "No source .db files found to merge.";; mret 0%Z
   else
     table_map ← for_ src_dbs (λ db table_map,
       tables ← gather_tables db;
       mret (foldl (record_table db) table_map tables)) ∅;
     let duplicates := filter (λ kv, 1 < length kv.2) (table_map : gmap str (list string)) in
     if decide (duplicates ≠ ∅) then
       print "Duplicate table names found across DBs. Aborting to avoid overwrite.";;
       for_ (map_to_list duplicates) (λ kv (_ : unit),
         print_str (lit "Table: " ++ kv.1);;
         for_ kv.2 (λ d (_ : unit), print ("  - " +:+ d)) ()) ();;
       mret 2%Z
     else
       existed ← path_exists OUT_DB;
       (if (existed : bool) then unlink OUT_DB else mret ());;
       write_file OUT_DB (Sqlite []);;
       for_ src_dbs (λ db (_ : unit),
         tables ← open_db db;
         for_ tables (λ tf (_ : unit),
           to_sql_fail tf.1 tf.2;;
           print_str (lit "Copied table " ++ tf.1 ++ lit " from " ++ lit db ++ lit " -> "
                      ++ lit OUT_DB)) ()) ();;
       print ("Merge complete. Output DB: " +:+ OUT_DB);;
       mret 0%Z) st.

(** The entry of a table name after more databases [l] were recorded. *)
Definition ext (o : option (list string)) (l : list string) : option (list string) :=
  if decide (l = []) then o else Some (default [] o ++ l).

(** The tables of a source database. *)
Definition tables_of (fs : gmap string file) (p : string) : list (str * frame) :=
  match fs !! p with
  | Some (Sqlite tables) => tables
  | _ => []
  end.

Definition names_in (fs : gmap string file) (p : string) : list str :=
  (tables_of fs p).*1.

(** The sources are databases, each with its table names all different. *)
Definition valid_sources (fs : gmap string file) : Prop :=
  ∀ p, p ∈ src_dbs_of fs → ∃ tables, fs !! p = Some (Sqlite tables) ∧ NoDup tables.*1.

(** A table name occurs in more than one source. *)
Definition duplicated (fs : gmap string file) : Prop :=
  ∃ t p q, p ≠ q ∧ p ∈ src_dbs_of fs ∧ q ∈ src_dbs_of fs ∧
           t ∈ (tables_of fs p).*1 ∧ t ∈ (tables_of fs q).*1.

(** The events that touch the output database. *)
Definition touches_output (ev : event) : Prop :=
  match ev with
  | Write p _ | Unlink p => p = OUT_DB
  | _ => False
  end.

End merge.
End merge_to_single_db.

(** ** What is said about a computation *)

Module Spec.
Import Py Script.

Section spec.
Context `{World}.

(** Every event [m] adds to the trace is of the class [E]. *)
Definition emits {A} (E : event → Prop) (m : M A) : Prop :=
  ∀ st, ∃ evs, trace (m st).2 = trace st ++ evs ∧ Forall E evs.

(** [m] leaves the files as they are. *)
Definition keeps_files {A} (m : M A) : Prop :=
  ∀ st, files (m st).2 = files st.

(** [m] ends normally, whatever the outside answers. *)
Definition total {A} (m : M A) : Prop :=
  ∀ st, ∃ a, (m st).1 = Return a.

(** [m] does not end by [sys.exit]. *)
Definition no_exit {A} (m : M A) : Prop :=
  ∀ st c, (m st).1 ≠ Exit c.

(** The events a run from [st] adds to the trace. *)
Definition events_of {A} (m : M A) (st : state) : list event :=
  drop (length (trace st)) (trace (m st).2).

End spec.
End Spec.

(** ** Worlds to run the scripts in *)

Module Examples.
Import Py Script.

(** A site whose pages are known by their URL: a request fails for the URLs
    of [fails], and pandas finds the tables [tables url] in the page. *)
Definition site (fails : string → bool) (tables : string → answer (list pd_frame)) : World := {|
  page := string;
  response := λ _ url, if fails url then Error "404 Client Error" else Ok url;
  read_html := tables;
  read_html_bs4 := tables;
  soup_html5lib := λ _, Error "Couldn't find a tree builder";
  playwright_installed := false;
  rendered := λ _ _, Error "Executable doesn't exist";
|}.

(** No network at all. *)
Definition offline : World := site (λ _, true) (λ _, Error "No tables found").

(** Every request is answered. *)
Definition online : World := site (λ _, false) (λ _, Error "No tables found").

Definition start : state := State [] ∅.

(** A season page with the same game twice and the games out of order. *)
Definition g (d o s : string) : record_game_results.game :=
  record_game_results.Game (lit d) (lit o) (lit "H") (lit "W") (lit s) [] [].

Definition season_page_online : @record_game_results.Heuristics online := {|
  record_game_results.candidates := λ _ _,
    Ok [g "2024-10-05" "Gannon" "21-14";
        g "2024-09-07" "Edinboro" "35-7";
        g "2024-10-05" "Gannon" "21-14"];
  record_game_results.team_stats_table := λ _ _, Ok None;
  record_game_results.team_offense_rows := λ _ _, Ok [];
|}.

End Examples.

(** * Part II: properties *)

(** ** Facts about the string primitives *)

Module PyFacts.
Import Py.

Section str_facts.
Context `{UnicodeData}.

Lemma lstrip_clean s : clean_start (lstrip s).
Proof.
  induction s as [|c s IH]; simpl; [done|].
  destruct (isspace c) eqn:E; [exact IH|]. simpl. rewrite E. by intros [].
Qed.

Lemma lstrip_id s : clean_start s → lstrip s = s.
Proof. destruct s as [|c s]; simpl; [done|]. by destruct (isspace c). Qed.

Lemma lstrip_suffix s : lstrip s `suffix_of` s.
Proof.
  induction s as [|c s IH]; simpl; [done|].
  destruct (isspace c); [by apply suffix_cons_r|done].
Qed.

Lemma rstrip_prefix s : rstrip s `prefix_of` s.
Proof.
  pose proof (lstrip_suffix (reverse s)) as Hs.
  apply suffix_prefix_reverse in Hs. by rewrite reverse_involutive in Hs.
Qed.

Lemma rstrip_idemp s : rstrip (rstrip s) = rstrip s.
Proof.
  unfold rstrip. rewrite reverse_involutive.
  by rewrite (lstrip_id (lstrip _)) by apply lstrip_clean.
Qed.

Lemma prefix_clean s t : s `prefix_of` t → clean_start t → clean_start s.
Proof. intros [k ->]. by destruct s. Qed.

Lemma rstrip_clean s : clean_start s → clean_start (rstrip s).
Proof. apply prefix_clean, rstrip_prefix. Qed.

Lemma strip_clean s : clean_start (strip s).
Proof. apply rstrip_clean, lstrip_clean. Qed.

Lemma strip_rstrip s : clean_start s → strip s = rstrip s.
Proof. intros. unfold strip. by rewrite lstrip_id. Qed.

Lemma strip_idemp s : strip (strip s) = strip s.
Proof.
  rewrite (strip_rstrip (strip s)) by apply strip_clean.
  apply rstrip_idemp.
Qed.

Lemma strip_prefix s : clean_start s → strip s `prefix_of` s.
Proof. intros. rewrite strip_rstrip by done. apply rstrip_prefix. Qed.

Lemma strip_nil : strip [] = [].
Proof. done. Qed.

Lemma strip_Forall (P : char → Prop) s : Forall P s → Forall P (strip s).
Proof.
  intros Hs. destruct (lstrip_suffix s) as [k1 E1].
  destruct (rstrip_prefix (lstrip s)) as [k2 E2].
  rewrite E1, E2, !Forall_app in Hs. unfold strip. tauto.
Qed.

Lemma remove_digits_id s : Forall (λ ch, ¬ isdigit ch) s → remove_digits s = s.
Proof.
  unfold remove_digits. induction 1 as [|c s Hc _ IH]; [done|].
  rewrite filter_cons_True by done. by rewrite IH.
Qed.

(** [str_in w s] holds exactly when [w] is a contiguous block of [s]. *)
Lemma str_in_spec w s : str_in w s ↔ ∃ a b, s = a ++ w ++ b.
Proof.
  induction s as [|c s IH]; simpl.
  - rewrite orb_false_r, bool_decide_spec. split.
    + intros [k Hk]. by exists [], k.
    + intros (a & b & E). symmetry in E.
      apply app_eq_nil in E as [-> [-> ->]%app_eq_nil]. done.
  - rewrite orb_True, bool_decide_spec, IH. split.
    + intros [[k Hk]|(a & b & ->)]; [by exists [], k|by exists (c :: a), b].
    + intros ([|c' a] & b & E); simplify_eq/=; [left; by exists b|right; eauto].
Qed.

Lemma str_in_nil s : str_in [] s.
Proof. apply str_in_spec. by exists [], s. Qed.

Lemma str_in_refl s : str_in s s.
Proof. apply str_in_spec. exists [], []. by rewrite app_nil_r. Qed.

End str_facts.

(** The order on strings is total and transitive. *)
Lemma str_le_total s t : str_le s t ∨ str_le t s.
Proof.
  revert t. induction s as [|a s IH]; intros [|b t]; simpl; auto.
  destruct (decide (a = b)) as [->|Hab].
  - rewrite !bool_decide_eq_true_2 by done. apply IH.
  - rewrite !(bool_decide_eq_false_2 (_ = _)) by done.
    rewrite !bool_decide_spec. lia.
Qed.

Lemma str_le_trans s t u : str_le s t → str_le t u → str_le s u.
Proof.
  revert t u. induction s as [|a s IH]; intros [|b t] [|c u]; simpl; try done.
  repeat case_bool_decide; subst; try done; try lia; eauto.
  all: intros; lia.
Qed.

(** *** The loop that drops the rows whose key was seen *)

Lemma dedupe_elem_of {A K} `{Countable K} (key : A → K) seen rows r :
  r ∈ dedupe key seen rows → r ∈ rows ∧ key r ∉ seen.
Proof.
  revert seen. induction rows as [|x rows IH]; intros seen; simpl.
  - by intros ?%elem_of_nil.
  - destruct (decide (key x ∈ seen)) as [Hin|Hnin].
    + intros [??]%IH. split; [by apply list_elem_of_further|done].
    + intros [->|[Hr Hk]%IH]%elem_of_cons.
      * split; [apply list_elem_of_here|done].
      * split; [by apply list_elem_of_further|]. set_solver.
Qed.

Lemma dedupe_NoDup {A K} `{Countable K} (key : A → K) seen rows :
  NoDup (key <$> dedupe key seen rows).
Proof.
  revert seen. induction rows as [|x rows IH]; intros seen; simpl.
  - constructor.
  - destruct (decide (key x ∈ seen)); [apply IH|].
    rewrite fmap_cons. constructor; [|apply IH].
    intros (r & Hk & [_ Hr]%dedupe_elem_of)%list_elem_of_fmap.
    apply Hr. rewrite Hk. set_solver.
Qed.

(** *** The stable sort *)

Lemma insert_sorted_Permutation {A} (le : A → A → bool) x l :
  insert_sorted le x l ≡ₚ x :: l.
Proof.
  induction l as [|y l IH]; simpl; [done|].
  destruct (le x y); [done|]. rewrite IH. apply Permutation_swap.
Qed.

Lemma sort_Permutation {A} (le : A → A → bool) l : sort le l ≡ₚ l.
Proof.
  induction l as [|x l IH]; simpl; [done|].
  unfold sort in *. simpl. by rewrite insert_sorted_Permutation, IH.
Qed.

Section sorted.
Context {A} (le : A → A → bool).
Context (le_total : ∀ x y, le x y ∨ le y x).
Context (le_trans : ∀ x y z, le x y → le y z → le x z).

Lemma insert_sorted_StronglySorted x l :
  StronglySorted le l → StronglySorted le (insert_sorted le x l).
Proof using le_total le_trans.
  induction 1 as [|y l Hl IH Hy]; simpl; [by repeat constructor|].
  destruct (le x y) eqn:Hxy.
  - constructor; [by constructor|]. constructor; [by rewrite Hxy|].
    eapply Forall_impl; [exact Hy|]. intros z Hz. eapply le_trans; [|exact Hz].
    by rewrite Hxy.
  - constructor; [done|].
    rewrite insert_sorted_Permutation. constructor; [|done].
    destruct (le_total x y) as [Hle|Hle]; [by rewrite Hxy in Hle|done].
Qed.

Lemma sort_StronglySorted l : StronglySorted le (sort le l).
Proof using le_total le_trans.
  induction l as [|x l IH]; [constructor|].
  unfold sort in *. simpl. by apply insert_sorted_StronglySorted.
Qed.
End sorted.

End PyFacts.

(** ** [collapse_dup] and [collapse_dup_name] *)

Module CollapseDupFacts.
Import Py PyFacts CollapseDup.

Section collapse_facts.
Context `{UnicodeData}.

Lemma dup_at_alt t n : dup_at t n ↔ take n t = take n (drop n t).
Proof.
  unfold dup_at, slice. rewrite Nat.sub_0_r, drop_0.
  by replace (2 * n - n) with n by lia.
Qed.

Lemma range_lookup a b i n : range a b !! i = Some n ↔ n = a + i ∧ n < b.
Proof. unfold range. rewrite lookup_seq. lia. Qed.

Lemma half_bound n L : n < L / 2 + 1 ↔ 2 * n ≤ L.
Proof.
  pose proof (Nat.div_mod_eq L 2). pose proof (Nat.mod_upper_bound L 2).
  lia.
Qed.

(** The loop stops at the smallest repeating block. *)
Lemma find_dup_Some t i n :
  list_find (dup_at t) (range 3 (length t / 2 + 1)) = Some (i, n) →
  block_repeats t n ∧ ∀ m, m < n → ¬ block_repeats t m.
Proof.
  rewrite list_find_Some. intros ((-> & Hn)%range_lookup & Hd & Hmin).
  apply half_bound in Hn. apply dup_at_alt in Hd.
  split; [unfold block_repeats; split_and!; [lia|done..]|].
  intros m Hm (Hm3 & Hm2 & Hmd).
  apply (Hmin (m - 3) m); [|lia|by apply dup_at_alt].
  apply range_lookup. split; [lia|]. by apply half_bound.
Qed.

Lemma find_dup_None t :
  list_find (dup_at t) (range 3 (length t / 2 + 1)) = None ↔
  ∀ n, ¬ block_repeats t n.
Proof.
  rewrite list_find_None, Forall_lookup. split.
  - intros Hno n (Hn3 & Hn2 & Hd).
    apply (Hno (n - 3) n); [|by apply dup_at_alt].
    apply range_lookup. split; [lia|]. by apply half_bound.
  - intros Hno i n (-> & Hn)%range_lookup Hd%dup_at_alt.
    apply (Hno (3 + i)). apply half_bound in Hn.
    unfold block_repeats. split_and!; [lia|done..].
Qed.

(** A repeating block of a prefix repeats in the whole string. *)
Lemma block_repeats_prefix r t m :
  r `prefix_of` t → block_repeats r m → block_repeats t m.
Proof.
  intros [k ->] (Hm3 & Hm2 & Hd). unfold block_repeats.
  rewrite length_app. split_and!; [done|lia|].
  rewrite drop_app_le by lia. rewrite !take_app_le; [done|..].
  - rewrite length_drop. lia.
  - lia.
Qed.

(** [collapse_dup] behaves as the specification words it. *)
Lemma collapse_dup_spec s : collapse_spec s (collapse_dup s).
Proof.
  unfold collapse_dup.
  destruct (list_find _ _) as [[i n]|] eqn:Hfind.
  - apply find_dup_Some in Hfind as [Hrep Hmin].
    destruct Hrep as (Hn3 & Hn2 & Hd). unfold slice.
    replace (2 * n - n) with n by lia. rewrite <- Hd.
    apply collapse_block; [|done]. by unfold block_repeats.
  - apply collapse_none. by apply find_dup_None.
Qed.

(** What the specification describes is a fixed point of [collapse_dup]. *)
Lemma collapse_spec_fixed s r : collapse_spec s r → collapse_dup r = r.
Proof.
  assert (Hfix : ∀ r, strip r = r → (∀ n, ¬ block_repeats r n) →
                      collapse_dup r = r).
  { intros r' Hs Hno. unfold collapse_dup. rewrite Hs.
    apply find_dup_None in Hno. by rewrite Hno. }
  intros [n Hrep Hmin|Hno].
  - apply Hfix; [apply strip_idemp|].
    intros m Hm. destruct Hrep as (Hn3 & Hn2 & Hd).
    assert (Hpre : strip (take n (strip s)) `prefix_of` take n (strip s)).
    { apply strip_prefix. eapply prefix_clean; [apply prefix_take|].
      apply strip_clean. }
    apply (Hmin m).
    + apply prefix_length in Hpre. rewrite length_take in Hpre.
      destruct Hm as (? & ? & _). lia.
    + eapply block_repeats_prefix; [|done].
      etrans; [exact Hpre|apply prefix_take].
  - apply Hfix; [apply strip_idemp|done].
Qed.

Lemma collapse_dup_idemp s : collapse_dup (collapse_dup s) = collapse_dup s.
Proof. eapply collapse_spec_fixed, collapse_dup_spec. Qed.

Lemma collapse_dup_nil : collapse_dup [] = [].
Proof. done. Qed.

Lemma collapse_dup_Forall (P : char → Prop) s :
  Forall P s → Forall P (collapse_dup s).
Proof.
  intros Hs. unfold collapse_dup. destruct (list_find _ _) as [[i n]|].
  - unfold slice. by apply strip_Forall, Forall_take, Forall_drop, strip_Forall.
  - by apply strip_Forall.
Qed.

(** Without digits to remove, [collapse_dup_name] runs the same loop and
    returns the first copy of the block where [collapse_dup] returns the
    second. *)
Lemma collapse_dup_name_no_digit s :
  Forall (λ ch, ¬ isdigit ch) s → collapse_dup_name s = collapse_dup s.
Proof.
  intros Hs. unfold collapse_dup_name, collapse_dup.
  rewrite remove_digits_id by by apply strip_Forall.
  destruct (list_find _ _) as [[i n]|] eqn:Hfind; [|done].
  apply list_find_Some in Hfind as (_ & Hd & _). by rewrite Hd.
Qed.

(** C10: on an input without digits, [collapse_dup_name] (clean_scoring.py)
    and [collapse_dup] (fetch_scoring.py) return the same string, which is
    the one the description gives: the input is stripped, the smallest
    [n >= 3] whose first [n] characters equal the next [n] selects the block
    returned stripped, and without such an [n] the stripped input is
    returned.  The operation is idempotent. *)
Theorem collapse_dup_name_refines_collapse_dup (s : str) :
  Forall (λ ch, ¬ isdigit ch) s →
  collapse_dup_name s = collapse_dup s ∧
  collapse_spec s (collapse_dup s) ∧
  collapse_dup (collapse_dup s) = collapse_dup s ∧
  collapse_dup_name (collapse_dup_name s) = collapse_dup_name s.
Proof.
  intros Hs. split_and!.
  - by apply collapse_dup_name_no_digit.
  - apply collapse_dup_spec.
  - apply collapse_dup_idemp.
  - rewrite !collapse_dup_name_no_digit; [apply collapse_dup_idemp|done|].
    rewrite collapse_dup_name_no_digit by done. by apply collapse_dup_Forall.
Qed.

End collapse_facts.

(** A run on "Smith, JoeSmith, Joe": the block "Smith, Joe" is found at
    [n = 10]. *)
Lemma collapse_dup_name_refines_collapse_dup_witness :
  @collapse_dup_name ascii_data (lit "Smith, JoeSmith, Joe") = lit "Smith, Joe" ∧
  @collapse_dup ascii_data (lit "Smith, JoeSmith, Joe") = lit "Smith, Joe".
Proof.
  pose proof (@collapse_dup_name_refines_collapse_dup ascii_data
                (lit "Smith, JoeSmith, Joe")) as Hw.
  destruct Hw as (Heq & _).
  - vm_compute. repeat constructor; by intros [].
  - split; [|by vm_compute]. rewrite Heq. by vm_compute.
Defined.

End CollapseDupFacts.

(** ** The heuristic header match *)

Module HeaderMatchFacts.
Import Py PyFacts Script CollapseDup CollapseDupFacts.

Lemma list_find_first_such {A} (P : A → Prop) `{∀ x, Decision (P x)} (l : list A) i :
  fst <$> list_find P l = Some i ↔ first_such P l i.
Proof.
  unfold first_such. split.
  - destruct (list_find P l) as [[i' x]|] eqn:Hf; [|done].
    intros [= <-]. apply list_find_Some in Hf as (? & ? & Hmin).
    split; [eauto|]. intros j y ? ?. by eapply Hmin.
  - intros [(x & Hx & HP) Hmin].
    assert (list_find P l = Some (i, x)) as ->; [|done].
    apply list_find_Some. split_and!; [done..|]. intros j y ? ?. by eapply Hmin.
Qed.

Lemma list_find_fmap_first_such {A B} (f : A → B) (P : B → Prop)
    `{∀ x, Decision (P x)} (l : list A) i :
  fst <$> list_find P (f <$> l) = Some i ↔ first_such (P ∘ f) l i.
Proof.
  rewrite list_find_first_such. unfold first_such.
  setoid_rewrite list_lookup_fmap. split.
  - intros [(y & Hy & HP) Hmin]. destruct (l !! i) as [x|] eqn:Hx; simplify_eq/=.
    split; [by eauto|]. intros j x' Hj Hx'. apply (Hmin j (f x')); [done|].
    by rewrite Hx'.
  - intros [(x & Hx & HP) Hmin]. split; [exists (f x); by rewrite Hx|].
    intros j y Hj Hy. destruct (l !! j) as [x'|] eqn:Hx'; simplify_eq/=.
    by apply (Hmin j x').
Qed.

(** A dictionary filled by a loop over a list of keys. *)
Lemma lookup_foldl_insert_opt {V} (f : str → option V) (ws : list str) (m : gmap str V) k :
  foldl (λ idx want, match f want with
                     | Some v => <[want := v]> idx
                     | None => idx
                     end) m ws !! k
  = if decide (k ∈ ws) then (match f k with Some v => Some v | None => m !! k end)
    else m !! k.
Proof.
  revert m. induction ws as [|w ws IH]; intros m; simpl.
  - destruct (decide (k ∈ [])) as [[]%elem_of_nil|]; done.
  - rewrite IH. destruct (decide (k = w)) as [->|Hne].
    + rewrite (decide_True (P := w ∈ w :: ws)) by apply list_elem_of_here.
      destruct (f w) as [v|] eqn:Hf.
      * rewrite lookup_insert_eq. by destruct (decide _).
      * by destruct (decide _).
    + assert (Hm : ∀ m' : gmap str V,
                 (match f w with Some v => <[w:=v]> m' | None => m' end) !! k = m' !! k).
      { intros m'. destruct (f w); [by rewrite lookup_insert_ne|done]. }
      rewrite Hm. destruct (decide (k ∈ ws)) as [Hin|Hnin].
      * by rewrite decide_True by by apply list_elem_of_further.
      * rewrite decide_False; [done|]. by intros [?|?]%elem_of_cons.
Qed.

Lemma lookup_foldl_insert {V} (g : str → V) (ws : list str) (m : gmap str V) k :
  foldl (λ row col, <[col := g col]> row) m ws !! k
  = if decide (k ∈ ws) then Some (g k) else m !! k.
Proof.
  pose proof (lookup_foldl_insert_opt (λ w, Some (g w)) ws m k) as Hl.
  simpl in Hl. exact Hl.
Qed.

Section header_match.
Context `{UnicodeData} `{World} `{fetch_scoring_v3.Regex} `{fetch_scoring_v3.Pandas}.

(** *** fetch_scoring.py *)

Lemma scoring_idx_lookup header_row want :
  want ∈ fetch_scoring.WANT_COLS →
  fetch_scoring.build_idx header_row !! want
  = fetch_scoring.find_header (fetch_scoring.norm want) (fetch_scoring.norm <$> header_row).
Proof.
  intros Hw. unfold fetch_scoring.build_idx.
  rewrite lookup_foldl_insert_opt, decide_True by done.
  by destruct (fetch_scoring.find_header _ _).
Qed.

Lemma scoring_raw_row_lookup idx cells want :
  want ∈ fetch_scoring.WANT_COLS →
  fetch_scoring.raw_row idx cells !! want = Some (Str (fetch_scoring.pick idx cells want)).
Proof.
  intros Hw. unfold fetch_scoring.raw_row.
  by rewrite lookup_foldl_insert, decide_True by done.
Qed.

Lemma replace_go_nil old new skip : replace_go old new skip [] = [].
Proof. done. Qed.

(** A row whose mapped value is empty stays empty through the cleaning of
    the name. *)
Lemma scoring_finish_row_empty row year want :
  want ∈ fetch_scoring.WANT_COLS →
  row !! want = Some (Str []) →
  fetch_scoring.finish_row row year !! want = Some (Str []).
Proof.
  intros Hw Hrow. unfold fetch_scoring.finish_row.
  assert (want ≠ lit "Year") as Hy.
  { intros ->. revert Hw. apply (bool_decide_unpack _). by vm_compute. }
  rewrite lookup_insert_ne by done.
  destruct (decide (want = lit "Name")) as [->|Hn]; [|by rewrite lookup_insert_ne].
  rewrite lookup_insert_eq.
  assert (get row "Name" = []) as -> by (unfold get; by rewrite Hrow).
  assert (∀ j, (if decide (j ≠ []) then replace j [] [] else []) = []) as ->.
  { intros j. by destruct (decide _). }
  unfold remove_digits. rewrite filter_nil. by rewrite collapse_dup_nil.
Qed.

Lemma scoring_parse_table_empty header_row table year row want :
  want ∈ fetch_scoring.WANT_COLS →
  fetch_scoring.build_idx header_row !! want = None →
  row ∈ fetch_scoring.parse_table table header_row year →
  row !! want = Some (Str []).
Proof.
  intros Hw Hidx. unfold fetch_scoring.parse_table.
  destruct (tbody table) as [trs|]; [|by intros ?%elem_of_nil].
  intros (cells & -> & _)%list_elem_of_fmap.
  apply scoring_finish_row_empty; [done|].
  rewrite scoring_raw_row_lookup by done.
  unfold fetch_scoring.pick. by rewrite Hidx.
Qed.

(** *** fetch_scoring_v3.py *)

Lemma v3_find_label_spec w labels col :
  fetch_scoring_v3.find_label w labels = Some col ↔
  ∃ i, labels !! i = Some col ∧
       first_such (λ c, fetch_scoring_v3.header_matches w (fetch_scoring_v3.norm c)) labels i.
Proof.
  unfold fetch_scoring_v3.find_label, first_such. split.
  - destruct (list_find _ labels) as [[i c]|] eqn:Hf; [|done].
    intros [= <-]. apply list_find_Some in Hf as (? & ? & Hmin).
    exists i. split_and!; [done|by eauto|]. intros j y ? ?. by eapply Hmin.
  - intros (i & Hi & (x & Hx & HP) & Hmin). simplify_eq.
    assert (list_find (λ c, fetch_scoring_v3.header_matches w (fetch_scoring_v3.norm c))
              labels = Some (i, col)) as ->; [|done].
    apply list_find_Some. split_and!; [done..|]. intros j y ? ?. by eapply Hmin.
Qed.

Lemma v3_find_label_None w labels :
  fetch_scoring_v3.find_label w labels = None ↔
  Forall (λ c, ¬ fetch_scoring_v3.header_matches w (fetch_scoring_v3.norm c)) labels.
Proof.
  unfold fetch_scoring_v3.find_label. rewrite fmap_None. apply list_find_None.
Qed.

Lemma v3_out_row_lookup labels rrow n year want :
  want ∈ fetch_scoring_v3.WANT_COLS → want ≠ lit "Name" → want ≠ lit "#" →
  fetch_scoring_v3.out_row labels rrow n year !! want
  = Some (Str (fetch_scoring_v3.mapped labels (fetch_scoring_v3.cells_of labels rrow n) want)).
Proof.
  intros Hw Hn Hh. unfold fetch_scoring_v3.out_row.
  assert (want ≠ lit "Year") as Hy.
  { intros ->. revert Hw. apply (bool_decide_unpack _). by vm_compute. }
  rewrite !lookup_insert_ne by done.
  by rewrite lookup_foldl_insert, decide_True by done.
Qed.

(** [cells] has every label of the table, with the text of its cell or,
    when several columns carry the label, with the printed Series. *)
Lemma v3_cells_of_lookup labels rrow n col :
  fetch_scoring_v3.cells_of labels rrow n !! col
  = if decide (col ∈ labels) then Some (fetch_scoring_v3.cell_text labels rrow n col)
    else None.
Proof.
  unfold fetch_scoring_v3.cells_of. destruct (decide (col ∈ labels)) as [Hin|Hnin].
  - apply elem_of_list_to_map_1'.
    + by intros y (c & [= <- <-] & _)%list_elem_of_fmap.
    + apply list_elem_of_fmap. by exists col.
  - apply not_elem_of_list_to_map_1. rewrite <-list_fmap_compose.
    by intros (c & -> & ?)%list_elem_of_fmap.
Qed.

Lemma v3_mapped_None labels cells want :
  fetch_scoring_v3.find_label (fetch_scoring_v3.norm want) labels = None →
  fetch_scoring_v3.mapped labels cells want = [].
Proof. intros Hn. unfold fetch_scoring_v3.mapped. by rewrite Hn. Qed.

(** Without a match the name is taken from the text under the label Player
    and the number from the text under the label #. *)
Lemma v3_out_row_name labels rrow n year :
  fetch_scoring_v3.find_label (fetch_scoring_v3.norm (lit "Name")) labels = None →
  fetch_scoring_v3.out_row labels rrow n year !! lit "Name"
  = Some (Str (fetch_scoring_v3.extract_name
                 (default [] (fetch_scoring_v3.cells_of labels rrow n !! lit "Player")))).
Proof.
  intros Hn. unfold fetch_scoring_v3.out_row.
  rewrite !lookup_insert_ne by done. rewrite lookup_insert_eq.
  unfold get. rewrite lookup_foldl_insert, decide_True
    by (apply (bool_decide_unpack _); by vm_compute).
  cbn [render]. rewrite v3_mapped_None by done.
  unfold fetch_scoring_v3.or_else. by rewrite decide_False by (by intros []).
Qed.

Lemma v3_out_row_number labels rrow n year :
  fetch_scoring_v3.find_label (fetch_scoring_v3.norm (lit "#")) labels = None →
  fetch_scoring_v3.out_row labels rrow n year !! lit "#"
  = Some (Str (default [] (fetch_scoring_v3.search_jersey
                 (default [] (fetch_scoring_v3.cells_of labels rrow n !! lit "#"))))).
Proof.
  intros Hn. unfold fetch_scoring_v3.out_row.
  rewrite lookup_insert_ne by done. rewrite lookup_insert_eq.
  unfold get. rewrite lookup_insert_ne by done.
  rewrite lookup_foldl_insert, decide_True
    by (apply (bool_decide_unpack _); by vm_compute).
  cbn [render]. rewrite v3_mapped_None by done.
  unfold fetch_scoring_v3.or_else. by rewrite decide_False by (by intros []).
Qed.

(** *** fetch_defense.py *)

Lemma defense_first_match_spec col hdrs i :
  fetch_defense.first_match col hdrs = Some i ↔
  first_such (fetch_defense.header_matches (fetch_defense.target_of col)
              ∘ fetch_defense.header_norm) hdrs i.
Proof. apply list_find_fmap_first_such. Qed.

Lemma defense_first_match_None col hdrs :
  fetch_defense.first_match col hdrs = None ↔
  Forall (λ h, ¬ fetch_defense.header_matches (fetch_defense.target_of col)
                   (fetch_defense.header_norm h)) hdrs.
Proof.
  unfold fetch_defense.first_match. rewrite fmap_None, list_find_None.
  by rewrite Forall_fmap.
Qed.

Lemma defense_row_lookup hdrs rws year row col :
  col ∈ fetch_defense.DESIRED →
  row ∈ fetch_defense.normalize_and_write rws hdrs year →
  ∃ r, r ∈ rws ∧ row !! col = Some (Str (fetch_defense.value_of hdrs r col)).
Proof.
  intros Hc. unfold fetch_defense.normalize_and_write.
  destruct (decide _); [by intros ?%elem_of_nil|].
  intros (r & -> & Hr)%list_elem_of_fmap. exists r. split; [done|].
  assert (col ≠ lit "Year") as Hy.
  { intros ->. revert Hc. apply (bool_decide_unpack _). by vm_compute. }
  rewrite lookup_insert_ne by done.
  by rewrite lookup_foldl_insert, decide_True by done.
Qed.

Lemma defense_value_of_None hdrs r col :
  fetch_defense.find_idx hdrs col = None → fetch_defense.value_of hdrs r col = [].
Proof.
  intros Hn. unfold fetch_defense.value_of. rewrite Hn.
  destruct (decide _) as [[_ ?]|]; done.
Qed.

(** [find_idx]: the first header that matches, else for "#" and "Name" the
    first header of the fall-back. *)
Lemma defense_find_idx_spec hdrs col i :
  fetch_defense.find_idx hdrs col = Some i ↔
  first_such (fetch_defense.header_matches (fetch_defense.target_of col)
              ∘ fetch_defense.header_norm) hdrs i ∨
  (Forall (λ h, ¬ fetch_defense.header_matches (fetch_defense.target_of col)
                    (fetch_defense.header_norm h)) hdrs ∧
   ((col = lit "#" ∧ first_such fetch_defense.number_header hdrs i) ∨
    (col = lit "Name" ∧ first_such fetch_defense.player_header hdrs i))).
Proof.
  unfold fetch_defense.find_idx.
  destruct (fetch_defense.first_match col hdrs) as [j|] eqn:Hm.
  - split.
    + intros [= <-]. left. by apply defense_first_match_spec.
    + intros [Hi|[Hno _]].
      * apply defense_first_match_spec in Hi. congruence.
      * apply defense_first_match_None in Hno. congruence.
  - pose proof Hm as Hno. apply defense_first_match_None in Hno. split.
    + intros Hi. right. split; [done|].
      destruct (decide (col = lit "#")) as [->|Hh].
      { left. split; [done|]. by apply list_find_first_such in Hi. }
      destruct (decide (col = lit "Name")) as [->|Hn]; [|done].
      right. split; [done|]. by apply list_find_first_such in Hi.
    + intros [Hi|[_ [[-> Hi]|[-> Hi]]]].
      * apply defense_first_match_spec in Hi. congruence.
      * rewrite decide_True by done. by apply list_find_first_such.
      * rewrite decide_False by done. rewrite decide_True by done.
        by apply list_find_first_such.
Qed.

Lemma defense_find_idx_None hdrs col :
  Forall (λ h, ¬ fetch_defense.header_matches (fetch_defense.target_of col)
                   (fetch_defense.header_norm h)) hdrs →
  (col = lit "#" → Forall (λ h, ¬ fetch_defense.number_header h) hdrs) →
  (col = lit "Name" → Forall (λ h, ¬ fetch_defense.player_header h) hdrs) →
  fetch_defense.find_idx hdrs col = None.
Proof.
  intros Hno%defense_first_match_None Hh Hn. unfold fetch_defense.find_idx.
  rewrite Hno. destruct (decide (col = lit "#")) as [Hc|_].
  { rewrite fmap_None. by apply list_find_None, Hh. }
  destruct (decide (col = lit "Name")) as [Hc|_]; [|done].
  rewrite fmap_None. by apply list_find_None, Hn.
Qed.

(** C1, as the scripts have it.

    fetch_scoring.py: [parse_table] maps the wanted column to the first
    header, from the left, whose normal form equals, is part of or contains
    the normal form of the wanted name, the normal form of a text being its
    alphanumeric characters in upper case; when no header matches, every
    row of [parse_table] has the empty string for the column.

    fetch_scoring_v3.py: the same with the normal form that keeps, of the
    text in upper case, the characters A to Z and 0 to 9 only, and among the
    headers whose normal form is not empty; when no such header matches,
    the row has the empty string for the column, except that Name is then
    [extract_name] of the text under the label Player and # the first run
    of one to three digits of the text under the label #, each text being
    empty when no column has the label.

    fetch_defense.py: the wanted name in upper case without white space and
    full stops is compared with the header in upper case, its en dashes
    turned into hyphens, without white space and full stops.  [find_idx]
    returns the first header that matches; when none matches it returns for
    # the first number header, for Name the first player header, and
    nothing for the other columns.  A column for which no header matches
    and, for # and Name, no header of the fall-back exists is the empty
    string in every row of [normalize_and_write]. *)
Theorem header_match_by_script (header_row labels hdrs : list str) :
  (∀ want, want ∈ fetch_scoring.WANT_COLS →
     (∀ i, fetch_scoring.build_idx header_row !! want = Some i ↔
           first_such (fetch_scoring.header_matches (fetch_scoring.norm want)
                       ∘ fetch_scoring.norm) header_row i) ∧
     (Forall (λ h, ¬ fetch_scoring.header_matches (fetch_scoring.norm want)
                      (fetch_scoring.norm h)) header_row →
      ∀ table year row,
        row ∈ fetch_scoring.parse_table table header_row year →
        row !! want = Some (Str []))) ∧
  (∀ want, want ∈ fetch_scoring_v3.WANT_COLS →
     (∀ col, fetch_scoring_v3.find_label (fetch_scoring_v3.norm want) labels = Some col ↔
             ∃ i, labels !! i = Some col ∧
                  first_such (λ c, fetch_scoring_v3.header_matches
                                     (fetch_scoring_v3.norm want)
                                     (fetch_scoring_v3.norm c)) labels i) ∧
     (Forall (λ c, ¬ fetch_scoring_v3.header_matches (fetch_scoring_v3.norm want)
                      (fetch_scoring_v3.norm c)) labels →
      ∀ rrow n year,
        fetch_scoring_v3.out_row labels rrow n year !! want
        = Some (Str
            (if decide (want = lit "Name") then
               fetch_scoring_v3.extract_name
                 (default [] (fetch_scoring_v3.cells_of labels rrow n !! lit "Player"))
             else if decide (want = lit "#") then
               default [] (fetch_scoring_v3.search_jersey
                 (default [] (fetch_scoring_v3.cells_of labels rrow n !! lit "#")))
             else [])))) ∧
  (∀ col, col ∈ fetch_defense.DESIRED →
     (∀ i, fetch_defense.find_idx hdrs col = Some i ↔
           first_such (fetch_defense.header_matches (fetch_defense.target_of col)
                       ∘ fetch_defense.header_norm) hdrs i ∨
           (Forall (λ h, ¬ fetch_defense.header_matches (fetch_defense.target_of col)
                             (fetch_defense.header_norm h)) hdrs ∧
            ((col = lit "#" ∧ first_such fetch_defense.number_header hdrs i) ∨
             (col = lit "Name" ∧ first_such fetch_defense.player_header hdrs i)))) ∧
     (Forall (λ h, ¬ fetch_defense.header_matches (fetch_defense.target_of col)
                      (fetch_defense.header_norm h)) hdrs →
      (col = lit "#" → Forall (λ h, ¬ fetch_defense.number_header h) hdrs) →
      (col = lit "Name" → Forall (λ h, ¬ fetch_defense.player_header h) hdrs) →
      ∀ rws year row,
        row ∈ fetch_defense.normalize_and_write rws hdrs year →
        row !! col = Some (Str []))).
Proof.
  split_and!.
  - intros want Hw. split.
    + intros i. rewrite scoring_idx_lookup by done.
      apply list_find_fmap_first_such.
    + intros Hno table year row. apply scoring_parse_table_empty; [done|].
      rewrite scoring_idx_lookup by done. unfold fetch_scoring.find_header.
      rewrite fmap_None, list_find_None. by rewrite Forall_fmap.
  - intros want Hw. split; [intros col; apply v3_find_label_spec|].
    intros Hno%v3_find_label_None rrow n year.
    destruct (decide (want = lit "Name")) as [->|Hn]; [by apply v3_out_row_name|].
    destruct (decide (want = lit "#")) as [->|Hh]; [by apply v3_out_row_number|].
    rewrite v3_out_row_lookup by done. by rewrite v3_mapped_None.
  - intros col Hc. split; [intros i; apply defense_find_idx_spec|].
    intros Hno Hh Hn rws year row Hrow.
    destruct (defense_row_lookup hdrs rws year row col Hc Hrow) as (r & _ & ->).
    by rewrite defense_value_of_None by by apply defense_find_idx_None.
Qed.

End header_match.

(** The engine's answers on the strings of the example below, none of which
    has a comma or a digit. *)
Definition no_match : fetch_scoring_v3.Regex :=
  {| fetch_scoring_v3.search_last_first := λ _, None;
     fetch_scoring_v3.search_jersey := λ _, None |}.

(** No label of the examples below is carried by two columns, so that
    pandas prints no Series there. *)
Definition no_series : fetch_scoring_v3.Pandas :=
  {| fetch_scoring_v3.series_str := λ _ _ _ _, [] |}.

(** C1 as it is worded fails on fetch_scoring_v3.py.  With the headers "%"
    and "PTS", the first header whose normal form (empty) is part of "PTS"
    is "%", and the script maps PTS to the second header.  With the headers
    "Player" and "PTS" no header matches Name, and the row carries the name
    taken from the Player cell. *)
Lemma header_match_as_worded_fails :
  ¬ (∀ (labels : list str) (want : str),
       want ∈ fetch_scoring_v3.WANT_COLS →
       (∀ i, first_such (fetch_scoring.header_matches (@fetch_scoring.norm ascii_data want)
                         ∘ @fetch_scoring.norm ascii_data) labels i →
             @fetch_scoring_v3.find_label ascii_data
               (@fetch_scoring_v3.norm ascii_data want) labels = labels !! i) ∧
       (Forall (λ c, ¬ fetch_scoring.header_matches (@fetch_scoring.norm ascii_data want)
                        (@fetch_scoring.norm ascii_data c)) labels →
        ∀ rrow n year,
          @fetch_scoring_v3.out_row ascii_data no_match no_series labels rrow n year !! want
          = Some (Str []))).
Proof.
  intros Hclaim.
  destruct (Hclaim [lit "%"; lit "PTS"] (lit "PTS")) as [Hfirst _].
  { apply (bool_decide_unpack _). by vm_compute. }
  specialize (Hfirst 0). revert Hfirst. vm_compute. intros Hfirst.
  assert (Some (lit "PTS") = Some (lit "%")) as [=]; [|done..].
  apply Hfirst. split.
  - eexists. split; [done|]. right. right. done.
  - intros j y Hj. lia.
Qed.


(** The second half of the example, run: no header matches Name, and the
    row carries the text of the Player cell. *)
Lemma v3_name_from_player_cell :
  @fetch_scoring_v3.find_label ascii_data
    (@fetch_scoring_v3.norm ascii_data (lit "Name")) [lit "Player"; lit "PTS"] = None ∧
  @fetch_scoring_v3.out_row ascii_data no_match no_series
    [lit "Player"; lit "PTS"] [lit "Smith"; lit "6"] 0 2024 !! lit "Name"
  = Some (Str (lit "Smith")).
Proof. split; by vm_compute. Qed.

(** Two more runs.  In fetch_scoring_v3.py the header T, E with an acute
    accent has the normal form T, which is part of TD: TD is mapped to it.
    In fetch_defense.py the header TFL, en dash, Yds has the normal form
    TFL-YDS: TFL-YDS is mapped to it, before the header TFL-Yds. *)
Lemma header_match_runs :
  @fetch_scoring_v3.find_label ascii_data (@fetch_scoring_v3.norm ascii_data (lit "TD"))
    [[84; 201]%N; lit "PTS"] = Some [84; 201]%N ∧
  @fetch_defense.find_idx ascii_data
    [lit "TFL" ++ [8211%N] ++ lit "Yds"; lit "TFL-Yds"] (lit "TFL-YDS") = Some 0.
Proof. split; by vm_compute. Qed.

(** A run of the theorem on the headers "Player Name", "TD", "Pts": PTS is
    mapped to the third header. *)
Lemma header_match_by_script_witness :
  @fetch_scoring.build_idx ascii_data [lit "Player Name"; lit "TD"; lit "Pts"]
    !! lit "PTS" = Some 2.
Proof.
  destruct (@header_match_by_script ascii_data no_match no_series
              [lit "Player Name"; lit "TD"; lit "Pts"] [] []) as (Hs & _ & _).
  destruct (Hs (lit "PTS")) as [Hidx _].
  { apply (bool_decide_unpack _). by vm_compute. }
  apply Hidx. split.
  - eexists. split; [done|]. apply (bool_decide_unpack _). by vm_compute.
  - intros [|[|j]] y Hj Hy; [| |lia]; simplify_eq/=;
      apply (bool_decide_unpack _); by vm_compute.
Defined.

End HeaderMatchFacts.

(** ** Rules for the computations *)

Module SpecFacts.
Import Py Script Spec.

Section rules.
Context `{World}.

Lemma run_bind {A B} (f : A → M B) (m : M A) st :
  (m ≫= f) st = match m st with
                | (Return a, st') => f a st'
                | (Raise e, st') => (Raise e, st')
                | (Exit c, st') => (Exit c, st')
                end.
Proof. done. Qed.

Lemma run_fmap {A B} (f : A → B) (m : M A) st :
  (f <$> m) st = match m st with
                 | (Return a, st') => (Return (f a), st')
                 | (Raise e, st') => (Raise e, st')
                 | (Exit c, st') => (Exit c, st')
                 end.
Proof. unfold fmap, M_fmap. rewrite run_bind. by destruct (m st) as [[] ?]. Qed.

Lemma run_try {A} (m : M A) h st :
  try_except m h st = match m st with
                      | (Raise e, st') => h e st'
                      | r => r
                      end.
Proof. done. Qed.

(** *** [emits] *)

Lemma emits_mono {A} (E E' : event → Prop) (m : M A) :
  (∀ ev, E ev → E' ev) → emits E m → emits E' m.
Proof.
  intros HE Hm st. destruct (Hm st) as (evs & -> & Hevs).
  exists evs. split; [done|]. eapply Forall_impl; eauto.
Qed.

Lemma emits_ret {A} E (a : A) : emits E (mret a).
Proof. intros st. exists []. by rewrite app_nil_r. Qed.

Lemma emits_raise {A} E e : emits E (raise (A:=A) e).
Proof. intros st. exists []. by rewrite app_nil_r. Qed.

Lemma emits_exit {A} E c : emits E (sys_exit (A:=A) c).
Proof. intros st. exists []. by rewrite app_nil_r. Qed.

Lemma emits_lift {A} E (r : answer A) : emits E (lift r).
Proof. intros st. exists []. by rewrite app_nil_r. Qed.

Lemma emits_emit E ev : E ev → emits E (emit ev).
Proof. intros Hev st. exists [ev]. split; [done|]. by constructor. Qed.

Lemma emits_print E line : E (Print (lit line)) → emits E (print line).
Proof. apply emits_emit. Qed.

Lemma emits_print_str E line : E (Print line) → emits E (print_str line).
Proof. apply emits_emit. Qed.

Lemma emits_bind {A B} E (m : M A) (f : A → M B) :
  emits E m → (∀ a, emits E (f a)) → emits E (m ≫= f).
Proof.
  intros Hm Hf st. rewrite run_bind. destruct (Hm st) as (evs & Ht & Hevs).
  destruct (m st) as [[a|e|c] st']; simpl in *; [|by eauto..].
  destruct (Hf a st') as (evs' & -> & Hevs'). rewrite Ht.
  exists (evs ++ evs'). rewrite app_assoc. split; [done|]. by apply Forall_app.
Qed.

Lemma emits_fmap {A B} E (m : M A) (f : A → B) : emits E m → emits E (f <$> m).
Proof. intros Hm. apply emits_bind; [done|]. intros a. apply emits_ret. Qed.

Lemma emits_try {A} E (m : M A) h :
  emits E m → (∀ e, emits E (h e)) → emits E (try_except m h).
Proof.
  intros Hm Hh st. rewrite run_try. destruct (Hm st) as (evs & Ht & Hevs).
  destruct (m st) as [[a|e|c] st']; simpl in *; [by eauto| |by eauto].
  destruct (Hh e st') as (evs' & -> & Hevs'). rewrite Ht.
  exists (evs ++ evs'). rewrite app_assoc. split; [done|]. by apply Forall_app.
Qed.

Lemma emits_for {A S} E (l : list A) (body : A → S → M S) acc :
  (∀ x acc, x ∈ l → emits E (body x acc)) → emits E (for_ l body acc).
Proof.
  revert acc. induction l as [|x l IH]; intros acc Hb; simpl.
  - apply emits_ret.
  - apply emits_bind; [apply Hb, list_elem_of_here|].
    intros acc'. apply IH. intros y acc'' Hy. by apply Hb, list_elem_of_further.
Qed.

(** A computation that first looks at the state. *)
Lemma emits_state {A} E (m : M A) :
  (∀ st, ∃ m', m st = m' st ∧ emits E m') → emits E m.
Proof. intros Hm st. destruct (Hm st) as (m' & -> & Hm'). apply Hm'. Qed.

Lemma emits_get E url : E (Get url) → emits E (requests_get url).
Proof.
  intros Hev st. exists [Get url]. split; [|by constructor].
  unfold requests_get, lift. by destruct (response _ _).
Qed.

Lemma emits_goto E url : E (Get url) → emits E (page_goto url).
Proof.
  intros Hev st. exists [Get url]. split; [|by constructor].
  unfold page_goto, lift. by destruct (rendered _ _).
Qed.

Lemma emits_exists E path : emits E (path_exists path).
Proof. intros st. exists []. by rewrite app_nil_r. Qed.

Lemma emits_write E path f : E (Write path (kind_of f)) → emits E (write_file path f).
Proof. intros Hev st. exists [Write path (kind_of f)]. split; [done|]. by constructor. Qed.

Lemma emits_unlink E path : E (Unlink path) → emits E (unlink path).
Proof. intros Hev st. exists [Unlink path]. split; [done|]. by constructor. Qed.

Lemma emits_to_csv E df path m header :
  E (Write path CSV) → emits E (to_csv df path m header).
Proof.
  intros Hev st. unfold to_csv.
  destruct m, (files st !! path) as [[]|]; simpl;
    first [by (exists [Write path CSV]; split; [done|by constructor])
          |by (exists []; rewrite app_nil_r)].
Qed.

Lemma emits_to_json E df path : E (Write path JSON) → emits E (to_json df path).
Proof. intros. by apply emits_write. Qed.

Lemma emits_read_csv_str E path : E (Read path CSV) → emits E (read_csv_str path).
Proof.
  intros Hev st. exists [Read path CSV]. split; [|by constructor].
  unfold read_csv_str. by destruct (files st !! path) as [[[|]| | |]|].
Qed.

Lemma emits_read_csv E path : E (Read path CSV) → emits E (read_csv path).
Proof.
  intros Hev st. exists [Read path CSV]. split; [|by constructor].
  unfold read_csv. by destruct (files st !! path) as [[[|]| | |]|].
Qed.

Lemma events_of_emits {A} E (m : M A) st : emits E m → Forall E (events_of m st).
Proof.
  intros Hm. destruct (Hm st) as (evs & Ht & Hevs). unfold events_of.
  by rewrite Ht, drop_app_length.
Qed.

(** *** [keeps_files] *)

Lemma keeps_ret {A} (a : A) : keeps_files (mret a).
Proof. done. Qed.
Lemma keeps_lift {A} (r : answer A) : keeps_files (lift r).
Proof. done. Qed.
Lemma keeps_emit ev : keeps_files (emit ev).
Proof. done. Qed.
Lemma keeps_print line : keeps_files (print line).
Proof. done. Qed.
Lemma keeps_print_str line : keeps_files (print_str line).
Proof. done. Qed.
Lemma keeps_exists path : keeps_files (path_exists path).
Proof. done. Qed.
Lemma keeps_exit {A} c : keeps_files (sys_exit (A:=A) c).
Proof. done. Qed.
Lemma keeps_get url : keeps_files (requests_get url).
Proof. done. Qed.
Lemma keeps_goto url : keeps_files (page_goto url).
Proof. done. Qed.
Lemma keeps_raise {A} e : keeps_files (raise (A:=A) e).
Proof. done. Qed.

Lemma keeps_bind {A B} (m : M A) (f : A → M B) :
  keeps_files m → (∀ a, keeps_files (f a)) → keeps_files (m ≫= f).
Proof.
  intros Hm Hf st. rewrite run_bind. specialize (Hm st).
  destruct (m st) as [[a|e|c] st']; simpl in *; [|done..].
  by rewrite Hf.
Qed.

Lemma keeps_fmap {A B} (m : M A) (f : A → B) : keeps_files m → keeps_files (f <$> m).
Proof. intros. by apply keeps_bind. Qed.

Lemma keeps_try {A} (m : M A) h :
  keeps_files m → (∀ e, keeps_files (h e)) → keeps_files (try_except m h).
Proof.
  intros Hm Hh st. rewrite run_try. specialize (Hm st).
  destruct (m st) as [[a|e|c] st']; simpl in *; [done| |done].
  by rewrite Hh.
Qed.

Lemma keeps_for {A S} (l : list A) (body : A → S → M S) acc :
  (∀ x acc, keeps_files (body x acc)) → keeps_files (for_ l body acc).
Proof.
  revert acc. induction l as [|x l IH]; intros acc Hb; simpl; [done|].
  apply keeps_bind; [apply Hb|]. intros acc'. by apply IH.
Qed.

(** *** [total] and [no_exit] *)

Lemma total_ret {A} (a : A) : total (mret a).
Proof. intros st. by exists a. Qed.
Lemma total_print line : total (print line).
Proof. intros st. by exists (). Qed.
Lemma total_print_str line : total (print_str line).
Proof. intros st. by exists (). Qed.

Lemma total_bind {A B} (m : M A) (f : A → M B) :
  total m → (∀ a, total (f a)) → total (m ≫= f).
Proof.
  intros Hm Hf st. rewrite run_bind. destruct (Hm st) as [a Ha].
  destruct (m st) as [o st']. simpl in Ha. subst o. apply Hf.
Qed.

Lemma total_for {A S} (l : list A) (body : A → S → M S) acc :
  (∀ x acc, total (body x acc)) → total (for_ l body acc).
Proof.
  revert acc. induction l as [|x l IH]; intros acc Hb; simpl.
  - apply total_ret.
  - apply total_bind; [apply Hb|]. intros acc'. by apply IH.
Qed.

(** A handler that ends normally makes the whole statement end normally,
    when the body cannot leave by [sys.exit]. *)
Lemma total_try {A} (m : M A) h :
  no_exit m → (∀ e, total (h e)) → total (try_except m h).
Proof.
  intros Hm Hh st. rewrite run_try. specialize (Hm st).
  destruct (m st) as [[a|e|c] st']; simpl in *; [by eauto|apply Hh|].
  by destruct (Hm c).
Qed.

Lemma no_exit_ret {A} (a : A) : no_exit (mret a).
Proof. by intros st c. Qed.
Lemma no_exit_raise {A} e : no_exit (raise (A:=A) e).
Proof. by intros st c. Qed.
Lemma no_exit_lift {A} (r : answer A) : no_exit (lift r).
Proof. intros st c. by destruct r. Qed.
Lemma no_exit_print line : no_exit (print line).
Proof. by intros st c. Qed.
Lemma no_exit_print_str line : no_exit (print_str line).
Proof. by intros st c. Qed.
Lemma no_exit_exists path : no_exit (path_exists path).
Proof. by intros st c. Qed.
Lemma no_exit_get url : no_exit (requests_get url).
Proof. intros st c. unfold requests_get, lift. by destruct (response _ _). Qed.
Lemma no_exit_goto url : no_exit (page_goto url).
Proof. intros st c. unfold page_goto, lift. by destruct (rendered _ _). Qed.

Lemma no_exit_bind {A B} (m : M A) (f : A → M B) :
  no_exit m → (∀ a, no_exit (f a)) → no_exit (m ≫= f).
Proof.
  intros Hm Hf st c. rewrite run_bind. specialize (Hm st).
  destruct (m st) as [[a|e|c'] st']; simpl in *; [apply Hf|done|].
  by destruct (Hm c').
Qed.

Lemma no_exit_fmap {A B} (m : M A) (f : A → B) : no_exit m → no_exit (f <$> m).
Proof. intros. apply no_exit_bind; [done|]. intros. apply no_exit_ret. Qed.

Lemma no_exit_try {A} (m : M A) h :
  no_exit m → (∀ e, no_exit (h e)) → no_exit (try_except m h).
Proof.
  intros Hm Hh st c. rewrite run_try. specialize (Hm st).
  destruct (m st) as [[a|e|c'] st']; simpl in *; [done|apply Hh|].
  by destruct (Hm c').
Qed.

Lemma total_no_exit {A} (m : M A) : total m → no_exit m.
Proof. intros Hm st c Hc. destruct (Hm st) as [a Ha]. congruence. Qed.

End rules.

(** The rules, applied along the structure of a computation. *)
Ltac split_scrutinee :=
  match goal with
  | |- context [match ?x with _ => _ end] =>
      lazymatch x with
      | context [match _ with _ => _ end] => fail
      | _ => destruct x eqn:?
      end
  end.

Ltac emits_step :=
  lazymatch goal with
  | |- emits _ (mret _) => apply emits_ret
  | |- emits _ (raise _) => apply emits_raise
  | |- emits _ (sys_exit _) => apply emits_exit
  | |- emits _ (lift _) => apply emits_lift
  | |- emits _ (print _) => apply emits_print
  | |- emits _ (print_str _) => apply emits_print_str
  | |- emits _ (emit _) => apply emits_emit
  | |- emits _ (requests_get _) => apply emits_get
  | |- emits _ (page_goto _) => apply emits_goto
  | |- emits _ (path_exists _) => apply emits_exists
  | |- emits _ (write_file _ _) => apply emits_write
  | |- emits _ (unlink _) => apply emits_unlink
  | |- emits _ (to_csv _ _ _ _) => apply emits_to_csv
  | |- emits _ (to_json _ _) => apply emits_to_json
  | |- emits _ (read_csv_str _) => apply emits_read_csv_str
  | |- emits _ (read_csv _) => apply emits_read_csv
  | |- emits _ (_ ≫= _) => apply emits_bind; [|intros ?]
  | |- emits _ (_ <$> _) => apply emits_fmap
  | |- emits _ (try_except _ _) => apply emits_try; [|intros ?]
  | |- emits _ (for_ _ _ _) => apply emits_for; intros ? ? ?
  | |- emits _ (match ?x with _ => _ end) => destruct x eqn:?
  | |- emits _ (let _ := _ in _) => cbv zeta
  end.

Ltac keeps_step :=
  lazymatch goal with
  | |- keeps_files (mret _) => apply keeps_ret
  | |- keeps_files (raise _) => apply keeps_raise
  | |- keeps_files (lift _) => apply keeps_lift
  | |- keeps_files (print _) => apply keeps_print
  | |- keeps_files (print_str _) => apply keeps_print_str
  | |- keeps_files (emit _) => apply keeps_emit
  | |- keeps_files (path_exists _) => apply keeps_exists
  | |- keeps_files (sys_exit _) => apply keeps_exit
  | |- keeps_files (requests_get _) => apply keeps_get
  | |- keeps_files (page_goto _) => apply keeps_goto
  | |- keeps_files (_ ≫= _) => apply keeps_bind; [|intros ?]
  | |- keeps_files (_ <$> _) => apply keeps_fmap
  | |- keeps_files (try_except _ _) => apply keeps_try; [|intros ?]
  | |- keeps_files (for_ _ _ _) => apply keeps_for; intros ? ?
  | |- keeps_files (match ?x with _ => _ end) => destruct x eqn:?
  | |- keeps_files (let _ := _ in _) => cbv zeta
  end.

Ltac no_exit_step :=
  lazymatch goal with
  | |- no_exit (mret _) => apply no_exit_ret
  | |- no_exit (raise _) => apply no_exit_raise
  | |- no_exit (lift _) => apply no_exit_lift
  | |- no_exit (print _) => apply no_exit_print
  | |- no_exit (print_str _) => apply no_exit_print_str
  | |- no_exit (path_exists _) => apply no_exit_exists
  | |- no_exit (requests_get _) => apply no_exit_get
  | |- no_exit (page_goto _) => apply no_exit_goto
  | |- no_exit (_ ≫= _) => apply no_exit_bind; [|intros ?]
  | |- no_exit (_ <$> _) => apply no_exit_fmap
  | |- no_exit (try_except _ _) => apply no_exit_try; [|intros ?]
  | |- no_exit (match ?x with _ => _ end) => destruct x eqn:?
  | |- no_exit (let _ := _ in _) => cbv zeta
  end.

End SpecFacts.

(** ** The game results: no duplicate keys, sorted by date *)

Module GameResultsFacts.
Import Py PyFacts Script Spec SpecFacts record_game_results Examples.

Section games.
Context `{UnicodeData} `{World} `{!Heuristics}.

Lemma by_date_sorted rows : StronglySorted by_date (sort by_date rows).
Proof.
  apply sort_StronglySorted.
  - intros x y. apply str_le_total.
  - intros x y z. apply str_le_trans.
Qed.

Lemma sorted_NoDup {K} (key : game → K) rows :
  NoDup (key <$> rows) → NoDup (key <$> sort by_date rows).
Proof. intros Hn. by rewrite sort_Permutation. Qed.

(** The loop over the years ends normally: the handler of a year prints
    and goes on. *)
Lemma scrape_season_no_exit url y : no_exit (scrape_season url y).
Proof. unfold scrape_season. repeat no_exit_step. Qed.

Lemma scrape_years_loop_total start_year end_year url_template :
  total (for_ (rangeZ start_year (end_year + 1)%Z) (λ y all_rows,
    let url := format_year url_template y in
    print ("Fetching " +:+ url +:+ " ...");;
    try_except
      (rows ← scrape_season url y;
       print ("  -> " +:+ pretty (length rows) +:+ " rows from " +:+ pretty y);;
       mret (all_rows ++ rows))
      (λ e, print ("  Failed " +:+ pretty y +:+ ": " +:+ e);; mret all_rows)) []).
Proof.
  apply total_for. intros y acc. cbv zeta.
  apply total_bind; [apply total_print|]. intros _.
  apply total_try.
  - apply no_exit_bind; [apply scrape_season_no_exit|]. intros rows.
    repeat no_exit_step.
  - intros e. apply total_bind; [apply total_print|]. intros _. apply total_ret.
Qed.

(** C9: [scrape_years] always returns, and its rows have pairwise
    different (date, opponent, score) and are in nondecreasing date order;
    the rows [scrape_season] returns for a season have pairwise different
    (date, opponent) and are in nondecreasing date order. *)
Theorem game_rows_unique_and_sorted :
  (∀ start_year end_year url_template st,
     ∃ rows, (scrape_years start_year end_year url_template st).1 = Return rows ∧
             NoDup ((λ r, (date r, opponent r, score r)) <$> rows) ∧
             StronglySorted (λ a b, str_le (date a) (date b)) rows) ∧
  (∀ url y st rows,
     (scrape_season url y st).1 = Return rows →
     NoDup ((λ r, (date r, opponent r)) <$> rows) ∧
     StronglySorted (λ a b, str_le (date a) (date b)) rows).
Proof.
  split.
  - intros start_year end_year url_template st. unfold scrape_years.
    rewrite run_bind.
    destruct (scrape_years_loop_total start_year end_year url_template st) as [all_rows Hr].
    destruct (for_ _ _ _ st) as [o st']. simpl in Hr. subst o.
    eexists. split; [done|]. split.
    + apply sorted_NoDup, dedupe_NoDup.
    + apply by_date_sorted.
  - intros url y st rows. unfold scrape_season. rewrite run_bind.
    destruct (requests_get url st) as [[resp|e|c] st1]; [|done..].
    rewrite run_bind.
    destruct (lift (candidates resp y) st1) as [[cands|e|c] st2]; [|done..].
    simpl. intros [= <-]. split.
    + apply sorted_NoDup, dedupe_NoDup.
    + apply by_date_sorted.
Qed.

End games.

(** A run on a season page with the same game twice and the games out of
    order. *)
Lemma game_rows_unique_and_sorted_witness :
  (@scrape_season online season_page_online "u" 2024 Examples.start).1
  = Return [g "2024-09-07" "Edinboro" "35-7"; g "2024-10-05" "Gannon" "21-14"] ∧
  NoDup ((λ r, (date r, opponent r)) <$>
         [g "2024-09-07" "Edinboro" "35-7"; g "2024-10-05" "Gannon" "21-14"]).
Proof.
  assert ((@scrape_season online season_page_online "u" 2024 Examples.start).1
          = Return [g "2024-09-07" "Edinboro" "35-7"; g "2024-10-05" "Gannon" "21-14"])
    as Hrun by (by vm_compute).
  split; [done|].
  by destruct (proj2 (@game_rows_unique_and_sorted online season_page_online)
                 "u" 2024%Z Examples.start _ Hrun).
Defined.

End GameResultsFacts.

(** ** Merging the databases *)

Module MergeFacts.
Import Py PyFacts Script Spec SpecFacts merge_to_single_db.

(** *** The dictionary from table name to the databases that have it *)

Lemma record_tables_lookup (db : string) (ns : list str) (tm : gmap str (list string)) (t : str) :
  NoDup ns →
  foldl (record_table db) tm ns !! t
  = if decide (t ∈ ns) then Some (default [] (tm !! t) ++ [db]) else tm !! t.
Proof.
  intros Hns. revert tm. induction Hns as [|n ns Hn Hns IH]; intros tm; simpl.
  - destruct (decide (t ∈ [])) as [[]%elem_of_nil|]; done.
  - rewrite IH. unfold record_table.
    destruct (decide (t = n)) as [->|Hne].
    + rewrite (decide_False (P := n ∈ ns)) by done.
      rewrite lookup_insert_eq.
      by rewrite (decide_True (P := n ∈ n :: ns)) by apply list_elem_of_here.
    + rewrite lookup_insert_ne by done.
      destruct (decide (t ∈ ns)).
      * by rewrite decide_True by by apply list_elem_of_further.
      * rewrite decide_False; [done|]. by intros [?|?]%elem_of_cons.
Qed.

Lemma table_map_lookup (names : string → list str) (srcs : list string) (tm : gmap str (list string)) (t : str) :
  (∀ p, p ∈ srcs → NoDup (names p)) →
  foldl (λ tm db, foldl (record_table db) tm (names db)) tm srcs !! t
  = ext (tm !! t) (filter (λ p, t ∈ names p) srcs).
Proof.
  revert tm. induction srcs as [|p srcs IH]; intros tm Hn; simpl.
  - done.
  - rewrite IH by (intros; apply Hn; by apply list_elem_of_further).
    rewrite record_tables_lookup by apply Hn, list_elem_of_here.
    unfold ext. rewrite filter_cons.
    destruct (decide (t ∈ names p)); [|done].
    destruct (decide (filter _ srcs = [])) as [->|Hne].
    + by rewrite decide_False.
    + rewrite decide_False by done. simpl. by rewrite <- app_assoc.
Qed.


Lemma src_dbs_NoDup fs : NoDup (src_dbs_of fs).
Proof.
  unfold src_dbs_of. rewrite sort_Permutation.
  apply NoDup_filter, NoDup_fst_map_to_list.
Qed.

Lemma src_dbs_not_output fs p : p ∈ src_dbs_of fs → p ≠ OUT_DB.
Proof.
  unfold src_dbs_of. rewrite sort_Permutation.
  intros [(_ & _ & ?) _]%list_elem_of_filter. done.
Qed.

(** More than one element in a list without repetition: two different
    elements. *)
Lemma two_elements {A} (l : list A) :
  NoDup l → (1 < length l ↔ ∃ x y, x ≠ y ∧ x ∈ l ∧ y ∈ l).
Proof.
  intros Hl. split.
  - destruct Hl as [|x l Hx Hl]; simpl; [lia|].
    destruct l as [|y l]; simpl; [lia|]. intros _.
    exists x, y. split_and!; [|apply list_elem_of_here
                              |apply list_elem_of_further, list_elem_of_here].
    intros ->. apply Hx, list_elem_of_here.
  - intros (x & y & Hne & Hx & Hy).
    destruct l as [|a [|b l]]; simpl; [|exfalso|lia].
    + by apply elem_of_nil in Hx.
    + apply list_elem_of_singleton in Hx, Hy. congruence.
Qed.

Lemma filter_nonempty {V} (P : str * V → Prop) `{∀ kv, Decision (P kv)} (m : gmap str V) :
  filter P m ≠ ∅ ↔ ∃ i x, m !! i = Some x ∧ P (i, x).
Proof.
  split.
  - intros (i & x & Hix)%map_choose.
    apply map_lookup_filter_Some in Hix. eauto.
  - intros (i & x & Hix & HP) Hempty.
    eapply (map_filter_empty_not_lookup P m i x); eauto.
Qed.

Section merge.
Context `{World}.

Lemma open_db_run st p tables :
  files st !! p = Some (Sqlite tables) →
  open_db p st = (Return tables, State (trace st ++ [Read p SQLITE]) (files st)).
Proof. intros Hp. unfold open_db. by rewrite Hp. Qed.

(** The first loop of [main] reads the sources and builds the dictionary. *)
Lemma gather_loop_run fs srcs tm st :
  files st = fs →
  (∀ p, p ∈ srcs → ∃ tables, fs !! p = Some (Sqlite tables)) →
  for_ srcs (λ db table_map,
      tables ← gather_tables db;
      mret (foldl (record_table db) table_map tables)) tm st
  = (Return (foldl (λ tm db, foldl (record_table db) tm (names_in fs db)) tm srcs),
     State (trace st ++ ((λ p, Read p SQLITE) <$> srcs)) fs).
Proof.
  revert tm st. induction srcs as [|p srcs IH]; intros tm st Hfs Hv; simpl.
  - rewrite app_nil_r. by destruct st; simplify_eq/=.
  - destruct (Hv p) as [tables Hp]; [apply list_elem_of_here|].
    rewrite run_bind. unfold gather_tables at 1. rewrite !run_bind.
    rewrite (open_db_run st p tables) by by rewrite Hfs. simpl.
    rewrite IH; [|done|intros; apply Hv; by apply list_elem_of_further].
    unfold names_in, tables_of. rewrite Hp. simpl.
    by rewrite <- app_assoc.
Qed.

(** The dictionary has a name with two databases exactly when a name is
    duplicated among the sources. *)
Lemma duplicates_iff fs :
  valid_sources fs →
  filter (λ kv : str * list string, 1 < length kv.2)
         (foldl (λ tm db, foldl (record_table db) tm (names_in fs db)) ∅ (src_dbs_of fs))
    ≠ ∅
  ↔ duplicated fs.
Proof.
  intros Hv.
  assert (Hlook : ∀ t, foldl (λ tm db, foldl (record_table db) tm (names_in fs db)) ∅
                         (src_dbs_of fs) !! t
                       = ext None (filter (λ p, t ∈ names_in fs p) (src_dbs_of fs))).
  { intros t. rewrite table_map_lookup; [by rewrite lookup_empty|].
    intros p Hp. destruct (Hv p Hp) as (tables & Hf & Hn).
    unfold names_in, tables_of. by rewrite Hf. }
  rewrite filter_nonempty.
  split.
  - intros (t & dbs & Ht & Hlen). simpl in Hlen.
    rewrite Hlook in Ht. unfold ext in Ht. case_decide; [done|]. simplify_eq/=.
    apply two_elements in Hlen as (p & q & Hne & Hp & Hq);
      [|apply NoDup_filter, src_dbs_NoDup].
    apply list_elem_of_filter in Hp as [? ?], Hq as [? ?].
    exists t, p, q. done.
  - intros (t & p & q & Hne & Hp & Hq & Htp & Htq).
    exists t, (filter (λ p, t ∈ names_in fs p) (src_dbs_of fs)). split.
    + rewrite Hlook. unfold ext. rewrite decide_False; [done|].
      intros Hnil. assert (p ∈ filter (λ p, t ∈ names_in fs p) (src_dbs_of fs)) as Hin
        by by apply list_elem_of_filter.
      rewrite Hnil in Hin. by apply elem_of_nil in Hin.
    + simpl. apply two_elements; [apply NoDup_filter, src_dbs_NoDup|].
      exists p, q. split_and!; [done|by apply list_elem_of_filter..].
Qed.


(** Without a duplicated name, the names of all source tables differ. *)
Lemma all_names_NoDup fs l :
  valid_sources fs → ¬ duplicated fs →
  NoDup l → (∀ p, p ∈ l → p ∈ src_dbs_of fs) →
  NoDup ((l ≫= tables_of fs).*1).
Proof.
  intros Hv Hnd. induction 1 as [|p l Hp Hl IH]; intros Hsub; [constructor|].
  rewrite bind_cons, fmap_app. apply NoDup_app. split_and!.
  - destruct (Hv p) as (tables & Hf & Hn); [apply Hsub, list_elem_of_here|].
    unfold tables_of. by rewrite Hf.
  - intros t Ht (tf & -> & (q & Hq & Hin)%list_elem_of_bind)%list_elem_of_fmap.
    apply Hnd. exists tf.1, p, q. split_and!.
    + intros ->. done.
    + apply Hsub, list_elem_of_here.
    + by apply Hsub, list_elem_of_further.
    + done.
    + by apply list_elem_of_fmap_2.
  - apply IH. intros q Hq. by apply Hsub, list_elem_of_further.
Qed.

(** The copy of the tables of one source into the output. *)
Lemma copy_tables_run (db : string) ts out st :
  files st !! OUT_DB = Some (Sqlite out) →
  NoDup ((out ++ ts).*1) →
  ∃ st',
    for_ ts (λ (tf : str * frame) (_ : unit),
        to_sql_fail tf.1 tf.2;;
        print_str (lit "Copied table " ++ tf.1 ++ lit " from " ++ lit db ++ lit " -> "
                   ++ lit OUT_DB)) () st = (Return (), st') ∧
    files st' !! OUT_DB = Some (Sqlite (out ++ ts)) ∧
    (∀ p, p ≠ OUT_DB → files st' !! p = files st !! p).
Proof.
  revert out st. induction ts as [|[t df] ts IH]; intros out st Hout Hn; cbn [for_].
  - exists st. by rewrite app_nil_r.
  - assert (t ∉ out.*1) as Ht.
    { rewrite fmap_app in Hn. apply NoDup_app in Hn as (_ & Hn & _).
      intros Hin. apply (Hn t Hin). simpl. apply list_elem_of_here. }
    rewrite !run_bind. unfold to_sql_fail at 1. rewrite Hout.
    rewrite decide_False by done. cbn [write_file print_str emit].
    match goal with |- context [for_ ts _ () ?s] => set (st1 := s) end.
    destruct (IH (out ++ [(t, df)]) st1) as (st' & Hrun' & Hout' & Hframe).
    { apply lookup_insert_eq. }
    { by rewrite <- app_assoc. }
    rewrite Hrun'.
    exists st'. split_and!; [done|by rewrite <- app_assoc in Hout'|].
    intros p Hp. rewrite Hframe by done. unfold st1. cbn [files].
    by rewrite lookup_insert_ne.
Qed.

Lemma tables_of_agree fs fs' p : fs' !! p = fs !! p → tables_of fs' p = tables_of fs p.
Proof. unfold tables_of. by intros ->. Qed.

(** The copy of all sources. *)
Lemma copy_dbs_run fs srcs out st :
  (∀ p, p ∈ srcs → p ≠ OUT_DB ∧ ∃ tables, fs !! p = Some (Sqlite tables)) →
  (∀ p, p ≠ OUT_DB → files st !! p = fs !! p) →
  files st !! OUT_DB = Some (Sqlite out) →
  NoDup ((out ++ (srcs ≫= tables_of fs)).*1) →
  ∃ st',
    for_ srcs (λ db (_ : unit),
        tables ← open_db db;
        for_ tables (λ (tf : str * frame) (_ : unit),
          to_sql_fail tf.1 tf.2;;
          print_str (lit "Copied table " ++ tf.1 ++ lit " from " ++ lit db ++ lit " -> "
                     ++ lit OUT_DB)) ()) () st = (Return (), st') ∧
    files st' !! OUT_DB = Some (Sqlite (out ++ (srcs ≫= tables_of fs))) ∧
    (∀ p, p ≠ OUT_DB → files st' !! p = fs !! p).
Proof.
  revert out st. induction srcs as [|p srcs IH]; intros out st Hv Hfs Hout Hn.
  - exists st. simpl. by rewrite app_nil_r.
  - destruct (Hv p) as (Hp & tables & Hf); [apply list_elem_of_here|].
    assert (tables_of fs p = tables) as Htp by (unfold tables_of; by rewrite Hf).
    rewrite bind_cons, Htp, app_assoc in Hn. rewrite bind_cons, Htp.
    cbn [for_]. rewrite !run_bind.
    rewrite (open_db_run st p tables) by (rewrite Hfs by done; done).
    destruct (copy_tables_run p tables out
                (State (trace st ++ [Read p SQLITE]) (files st)))
      as (st1 & Hrun1 & Hout1 & Hframe1).
    { exact Hout. }
    { rewrite fmap_app in Hn. apply NoDup_app in Hn as (Hn & _). done. }
    rewrite Hrun1.
    destruct (IH (out ++ tables) st1) as (st' & Hrun' & Hout' & Hframe').
    { intros q Hq. apply Hv. by apply list_elem_of_further. }
    { intros q Hq. rewrite Hframe1 by done. by apply Hfs. }
    { done. }
    { done. }
    rewrite Hrun'.
    exists st'. split_and!; [done| |done]. by rewrite app_assoc.
Qed.

(** The second half of [main]: the output is removed when it exists,
    created anew, and filled with the tables of the sources. *)
Lemma merge_tail_run fs srcs st1 :
  (∀ p, p ∈ srcs → p ≠ OUT_DB ∧ ∃ tables, fs !! p = Some (Sqlite tables)) →
  files st1 = fs →
  NoDup ((srcs ≫= tables_of fs).*1) →
  ∃ st3,
    (existed ← path_exists OUT_DB;
     (if (existed : bool) then unlink OUT_DB else mret ());;
     write_file OUT_DB (Sqlite []);;
     for_ srcs (λ db (_ : unit),
       tables ← open_db db;
       for_ tables (λ tf (_ : unit),
         to_sql_fail tf.1 tf.2;;
         print_str (lit "Copied table " ++ tf.1 ++ lit " from " ++ lit db ++ lit " -> "
                    ++ lit OUT_DB)) ()) ();;
     print ("Merge complete. Output DB: " +:+ OUT_DB);;
     mret 0%Z) st1 = (Return 0%Z, st3) ∧
    files st3 !! OUT_DB = Some (Sqlite (srcs ≫= tables_of fs)).
Proof.
  intros Hv Hfs Hn.
  rewrite run_bind. unfold path_exists at 1.
  destruct (bool_decide (is_Some (files st1 !! OUT_DB))).
  - rewrite run_bind. cbn [unlink]. rewrite run_bind.
    cbn [write_file kind_of trace files].
    match goal with |- context [(for_ _ _ () ≫= _) ?s] => set (st2 := s) end.
    destruct (copy_dbs_run fs srcs [] st2) as (st3 & Hrun3 & Hout3 & _);
      [done| | |done|].
    { intros p Hp. unfold st2. cbn [files].
      by rewrite lookup_insert_ne, lookup_delete_ne, Hfs. }
    { apply lookup_insert_eq. }
    rewrite run_bind, Hrun3. eexists. split; [reflexivity|done].
  - rewrite run_bind. cbn [mret M_ret]. rewrite run_bind.
    cbn [write_file kind_of trace files].
    match goal with |- context [(for_ _ _ () ≫= _) ?s] => set (st2 := s) end.
    destruct (copy_dbs_run fs srcs [] st2) as (st3 & Hrun3 & Hout3 & _);
      [done| | |done|].
    { intros p Hp. unfold st2. cbn [files]. by rewrite lookup_insert_ne, Hfs. }
    { apply lookup_insert_eq. }
    rewrite run_bind, Hrun3. eexists. split; [reflexivity|done].
Qed.

(** C5: when a table name occurs in more than one source database, [main]
    returns 2 and leaves every file as it was, without any write or unlink
    on the output database; when no name is duplicated it returns 0 and the
    output database has every table of every source under its name. *)
Theorem merge_aborts_or_copies_all (st : state) :
  valid_sources (files st) →
  (duplicated (files st) →
     (main st).1 = Return 2%Z ∧
     files (main st).2 = files st ∧
     Forall (λ ev, ¬ touches_output ev) (events_of main st)) ∧
  (¬ duplicated (files st) →
     (main st).1 = Return 0%Z ∧
     ∀ p t df, p ∈ src_dbs_of (files st) → (t, df) ∈ tables_of (files st) p →
       ∃ out, files (main st).2 !! OUT_DB = Some (Sqlite out) ∧ (t, df) ∈ out).
Proof.
  intros Hv.
  assert (Hsrc : ∀ p, p ∈ src_dbs_of (files st) →
                      ∃ tables, files st !! p = Some (Sqlite tables)).
  { intros p Hp. destruct (Hv p Hp) as (tables & ? & _). eauto. }
  pose proof (duplicates_iff (files st) Hv) as Hdup.
  unfold main, events_of.
  destruct (decide (src_dbs_of (files st) = [])) as [Hnil|Hnonnil].
  { split.
    - intros (t & p & q & _ & Hp & _). rewrite Hnil in Hp. by apply elem_of_nil in Hp.
    - intros _. split; [done|]. intros p t df Hp. rewrite Hnil in Hp.
      by apply elem_of_nil in Hp. }
  rewrite run_bind, (gather_loop_run (files st)) by done.
  set (tm := foldl _ ∅ _) in *.
  destruct (decide (filter _ tm ≠ ∅)) as [Hd|Hd].
  - split; [intros _|intros Hno; by apply Hdup in Hd].
    rewrite run_bind. cbn [print emit trace files].
    match goal with |- context [(for_ ?l ?body () ≫= _) ?s] =>
      set (loop := for_ l body ()); set (st1 := s) end.
    assert (emits (λ ev, ¬ touches_output ev) loop) as Hem.
    { unfold loop. repeat emits_step; simpl; tauto. }
    assert (keeps_files loop) as Hk.
    { unfold loop. repeat keeps_step. }
    assert (total loop) as Htot.
    { unfold loop. apply total_for. intros kv [].
      apply total_bind; [apply total_print_str|]. intros _.
      apply total_for. intros d0 []. apply total_print. }
    rewrite run_bind. destruct (Htot st1) as [[] Ha].
    specialize (Hk st1). destruct (Hem st1) as (evs & Htr & Hevs).
    destruct (loop st1) as [o st2]. simpl in Ha, Hk, Htr. subst o.
    cbn [fst snd mret M_ret]. split_and!; [done|by rewrite Hk|].
    rewrite Htr. unfold st1. cbn [trace].
    rewrite <- !app_assoc, drop_app_length. apply Forall_app. split.
    { apply Forall_fmap, Forall_true. intros p. simpl. tauto. }
    apply Forall_app. split; [|done]. repeat constructor. simpl. tauto.
  - split; [intros Hyes%Hdup; done|intros Hno].
    match goal with |- context [(?m ≫= ?f) ?s] => set (st1 := s) end.
    destruct (merge_tail_run (files st) (src_dbs_of (files st)) st1)
      as (st3 & Hrun3 & Hout3).
    { intros p Hp. split; [by eapply src_dbs_not_output|by apply Hsrc]. }
    { done. }
    { apply all_names_NoDup; [done|done|apply src_dbs_NoDup|done]. }
    rewrite Hrun3. split; [done|]. intros p t df Hp Hin.
    eexists. split; [exact Hout3|]. apply list_elem_of_bind. eauto.
Qed.

End merge.
End MergeFacts.

(** ** Table names, padding and name keys: the pure helpers *)

Module HelperFacts.
Import Py PyFacts Script.

Section helpers.
Context `{UnicodeData}.

(** *** xlsx_to_sqlite.sanitize *)

(** [sanitize] gives a usable table name whatever the input: it is not
    empty, it has only ASCII letters, digits and underscores, and it does
    not start with a digit.  The Unicode database is taken to agree with
    ASCII on which ASCII letters and digits are digits. *)
Theorem sanitize_is_identifier (name : str) :
  (∀ c, ascii_isalnum c → isdigit c = ascii_isdigit c) →
  xlsx_to_sqlite.sanitize name ≠ [] ∧
  Forall (λ ch, ascii_isalnum ch ∨ ch = 95%N) (xlsx_to_sqlite.sanitize name) ∧
  (∀ c, head (xlsx_to_sqlite.sanitize name) = Some c → ¬ ascii_isdigit c).
Proof.
  intros Hdigit. unfold xlsx_to_sqlite.sanitize.
  set (mapped := (λ ch, if ascii_isalnum ch || bool_decide (ch = 95%N) then ch else 95%N)
                 <$> squash isspace 95%N false name).
  assert (Hall : Forall (λ ch, ascii_isalnum ch ∨ ch = 95%N) mapped).
  { unfold mapped. apply Forall_fmap, Forall_true. intros ch. simpl.
    destruct (ascii_isalnum ch) eqn:Ha; simpl; [left; by rewrite Ha|].
    case_bool_decide; by right. }
  destruct mapped as [|c rest] eqn:Hm.
  - split_and!; [done| |].
    + apply (bool_decide_unpack _). by vm_compute.
    + intros c. vm_compute. intros [= <-]. tauto.
  - apply Forall_cons in Hall as [Hc Hrest]. destruct (isdigit c) eqn:Hd.
    + split_and!; [done|constructor; [by right|by constructor]|].
      intros c' [= <-]. vm_compute. tauto.
    + split_and!; [done|by constructor|]. intros c' [= <-].
      destruct Hc as [Hc| ->]; [|vm_compute; tauto].
      rewrite <- Hdigit by done. rewrite Hd. simpl. tauto.
Qed.

(** *** Padding of the number cells (game_by_game_defense.py, record_game_results.py) *)

(** [nums[:needed] + [''] * max(0, needed - len(nums))] has exactly
    [needed] cells: cell [i] is [nums[i]] when the row has one, else the
    empty string; longer rows lose their tail.  Both scripts use the same
    expression. *)
Theorem fit_pads_or_truncates (needed : nat) (nums : list str) :
  length (game_by_game_defense.fit needed nums) = needed ∧
  (∀ i, i < needed →
        game_by_game_defense.fit needed nums !! i = Some (default [] (nums !! i))) ∧
  record_game_results.fit needed nums = game_by_game_defense.fit needed nums.
Proof.
  unfold game_by_game_defense.fit, record_game_results.fit. split_and!; [|  |done].
  - rewrite length_app, length_take, length_replicate. lia.
  - intros i Hi. destruct (decide (i < length nums)) as [Hlt|Hge].
    + rewrite lookup_app_l by (rewrite length_take; lia).
      rewrite lookup_take_lt by done.
      destruct (lookup_lt_is_Some_2 nums i Hlt) as [x Hx]. by rewrite Hx.
    + rewrite lookup_app_r by (rewrite length_take; lia).
      rewrite length_take, (lookup_ge_None_2 nums i) by lia. simpl.
      apply lookup_replicate_2. lia.
Qed.

End helpers.

Lemma sanitize_is_identifier_witness :
  @xlsx_to_sqlite.sanitize ascii_data (lit "2024 stats (final)") = lit "_2024_stats__final_" ∧
  @xlsx_to_sqlite.sanitize ascii_data (lit "2024 stats (final)") ≠ [].
Proof.
  split; [by vm_compute|].
  by destruct (@sanitize_is_identifier ascii_data (lit "2024 stats (final)") (λ c _, eq_refl)).
Defined.

End HelperFacts.

(** ** The table parser of the special-teams scripts *)

Module SpecialTableFacts.
Import Py PyFacts Script special_tables.

Lemma lit_inj (a b : string) : lit a = lit b → a = b.
Proof.
  unfold lit. revert b. induction a as [|x a IH]; intros [|y b]; simpl; try done.
  intros [= Hxy Hab]. f_equal; [|by apply IH].
  by rewrite <- (Ascii.ascii_N_embedding x), Hxy, Ascii.ascii_N_embedding.
Qed.

Section parse_facts.
Context `{UnicodeData}.

Lemma elem_of_lstrip x s : x ∈ s → ¬ isspace x → x ∈ lstrip s.
Proof.
  intros Hx Hsp. induction s as [|c s IH]; simpl; [done|].
  destruct (isspace c) eqn:E; [|done].
  apply elem_of_cons in Hx as [->|Hx]; [|by apply IH].
  rewrite E in Hsp. by destruct Hsp.
Qed.

Lemma elem_of_strip x s : x ∈ s → ¬ isspace x → x ∈ strip s.
Proof.
  intros Hx Hsp. unfold strip, rstrip. apply elem_of_reverse, elem_of_lstrip; [|done].
  by apply elem_of_reverse, elem_of_lstrip.
Qed.

Lemma idx_map_snoc headers h :
  idx_map (headers ++ [h]) = <[normalize_header h := length headers]> (idx_map headers).
Proof.
  unfold idx_map. rewrite imap_app, foldl_app. simpl. by rewrite Nat.add_0_r.
Qed.

(** The entry of [idx_map] for a normal form is the position of the last
    header that has it. *)
Lemma idx_map_lookup headers k :
  match idx_map headers !! k with
  | Some i =>
      (∃ h, headers !! i = Some h ∧ normalize_header h = k) ∧
      ∀ j h', i < j → headers !! j = Some h' → normalize_header h' ≠ k
  | None => ∀ h', h' ∈ headers → normalize_header h' ≠ k
  end.
Proof.
  induction headers as [|h headers IH] using rev_ind.
  { unfold idx_map. simpl. rewrite lookup_empty. by intros h' ?%elem_of_nil. }
  rewrite idx_map_snoc. destruct (decide (normalize_header h = k)) as [<-|Hne].
  - rewrite lookup_insert_eq. split.
    + exists h. split; [|done]. by rewrite lookup_app_r, Nat.sub_diag by lia.
    + intros j h' Hj Hl. apply lookup_lt_Some in Hl. rewrite length_app in Hl.
      simpl in Hl. lia.
  - rewrite lookup_insert_ne by done. destruct (idx_map headers !! k) as [i|].
    + destruct IH as [(h0 & Hi & Hh0) Hlast]. split.
      * exists h0. split; [|done]. by apply lookup_app_l_Some.
      * intros j h' Hj Hl. apply lookup_app_Some in Hl as [Hl|[Hge Hl]].
        { by eapply Hlast. }
        apply list_lookup_singleton_Some in Hl as [_ <-]. done.
    + intros h' [Hin| ->%list_elem_of_singleton]%elem_of_app; [by apply IH|done].
Qed.

(** [find_index] gives the position of the LAST header whose normal form
    is that of the first key that has a header at all; it gives nothing
    only when no key has a header. *)
Theorem find_index_last_header (headers possible : list str) :
  match find_index headers possible with
  | Some i =>
      ∃ before p after h,
        possible = before ++ p :: after ∧
        (∀ q h', q ∈ before → h' ∈ headers → normalize_header h' ≠ normalize_header q) ∧
        headers !! i = Some h ∧ normalize_header h = normalize_header p ∧
        (∀ j h', i < j → headers !! j = Some h' →
                 normalize_header h' ≠ normalize_header p)
  | None =>
      ∀ p h, p ∈ possible → h ∈ headers → normalize_header h ≠ normalize_header p
  end.
Proof.
  induction possible as [|p possible IH]; simpl.
  { by intros p h ?%elem_of_nil. }
  pose proof (idx_map_lookup headers (normalize_header p)) as Hp.
  destruct (idx_map headers !! normalize_header p) as [i|].
  - destruct Hp as [(h & Hi & Hh) Hlast].
    exists [], p, possible, h. split_and!; [done| |done..].
    by intros q h' ?%elem_of_nil.
  - destruct (find_index headers possible) as [i|].
    + destruct IH as (before & p' & after & h & -> & Hbefore & Hi & Hh & Hlast).
      exists (p :: before), p', after, h. split_and!; [done| |done..].
      intros q h' [->|Hq]%elem_of_cons Hh'; [by apply Hp|by apply Hbefore].
    + intros q h [->|Hq]%elem_of_cons Hh'; [by apply Hp|by apply IH].
Qed.

Lemma parse_table_entry L headers trs e :
  e ∈ parse_table L headers trs →
  ∃ tr, tr ∈ trs ∧ e = entry L headers (strip <$> tr) ∧
        ¬ header_like L (strip <$> tr) ∧ ¬ Forall (λ c, c = []) (strip <$> tr).
Proof.
  unfold parse_table. intros (tr & Htr & He)%list_elem_of_omap. exists tr.
  unfold parse_row in He. repeat case_decide; try done.
  destruct (skips_totals L && _); [done|]. injection He as <-. tauto.
Qed.

Lemma entry_lookup L headers cols k keys :
  NoDup (fields L).*1 → (k, keys) ∈ fields L →
  entry L headers cols !! lit k = Some (Str (value headers cols (k, keys))).
Proof.
  intros Hnd Hin. unfold entry. apply elem_of_list_to_map_1.
  - rewrite <- list_fmap_compose.
    pose proof lit_inj as Hinj.
    clear Hin. induction (fields L) as [|f fs IH]; [constructor|].
    apply NoDup_cons in Hnd as [Hf Hfs]. simpl. constructor; [|by apply IH].
    intros (f' & Heq & Hf')%list_elem_of_fmap. simpl in Heq. apply Hinj in Heq.
    apply Hf, list_elem_of_fmap. by exists f'.
  - apply list_elem_of_fmap. by exists (k, keys).
Qed.

(** Where the table has no "#" column but has a "NO" column, the jersey
    number of every parsed row is the value of "NO" (the count): the key
    list of "#" is ['#', 'NO', 'NUMBER'].  This holds for the three scripts
    whose entry has both "#" and "NO". *)
Theorem number_is_count_without_hash (L : layout) (headers : list str)
    (trs : list (list str)) (e : dict) :
  L ∈ [fetch_receiving; fetch_punting; fetch_kickoffs] →
  e ∈ parse_table L headers trs →
  (∀ h, h ∈ headers → normalize_header h ≠ normalize_header (lit "#")) →
  (∃ h, h ∈ headers ∧ normalize_header h = normalize_header (lit "NO")) →
  ∃ v, e !! lit "#" = Some v ∧ e !! lit "NO" = Some v.
Proof.
  intros HL (tr & _ & -> & _)%parse_table_entry Hhash (h & Hh & Hno).
  set (cols := strip <$> tr).
  assert (idx_map headers !! normalize_header (lit "#") = None) as E1.
  { pose proof (idx_map_lookup headers (normalize_header (lit "#"))) as Hl.
    revert Hl. destruct (idx_map headers !! normalize_header (lit "#")) as [i|]; [|done].
    intros [(h0 & Hi & Hh0) _]. destruct (Hhash h0); [|done].
    by eapply list_elem_of_lookup_2. }
  assert (∃ i, idx_map headers !! normalize_header (lit "NO") = Some i) as [i E2].
  { pose proof (idx_map_lookup headers (normalize_header (lit "NO"))) as Hl.
    revert Hl. destruct (idx_map headers !! normalize_header (lit "NO")) as [i|];
      [by exists i|].
    intros Hl. by destruct (Hl h). }
  assert (∀ more more', get_by_keys headers cols (lit "#" :: lit "NO" :: more)
                        = get_by_keys headers cols (lit "NO" :: more')) as Hsame.
  { intros more more'. unfold get_by_keys. cbn [find_index]. by rewrite E1, E2. }
  assert (NoDup (fields L).*1 ∧
          ∃ more more', ("#", "#" :: "NO" :: more) ∈ fields L ∧
                        ("NO", "NO" :: more') ∈ fields L) as (Hnd & more & more' & H1 & H2).
  { apply elem_of_cons in HL as [->|HL].
    { split; [apply (bool_decide_unpack _); by vm_compute|].
      exists ["NUMBER"], ["REC"; "REC."].
      split; apply (bool_decide_unpack _); by vm_compute. }
    repeat (apply elem_of_cons in HL as [->|HL]); [..|by apply elem_of_nil in HL];
      (split; [apply (bool_decide_unpack _); by vm_compute|]);
      exists ["NUMBER"], []; split; apply (bool_decide_unpack _); by vm_compute. }
  rewrite (entry_lookup _ _ _ _ _ Hnd H1), (entry_lookup _ _ _ _ _ Hnd H2).
  eexists. split; [done|]. unfold value. cbn [fst snd].
  rewrite !decide_False by done. cbn [fmap list_fmap]. by rewrite <- (Hsame (lit <$> more)).
Qed.

Lemma replace_go_elem (old new : str) k s x :
  x ∈ replace_go old new k s → x ∈ new ∨ x ∈ s.
Proof.
  revert k. induction s as [|c s IH]; intros k; simpl.
  { by intros ?%elem_of_nil. }
  destruct k as [|k].
  - case_bool_decide.
    + intros [Hx|Hx]%elem_of_app; [by left|].
      destruct (IH _ Hx) as [?|?]; [by left|right; by apply list_elem_of_further].
    + intros [->|Hx]%elem_of_cons; [right; apply list_elem_of_here|].
      destruct (IH _ Hx) as [?|?]; [by left|right; by apply list_elem_of_further].
  - intros Hx. destruct (IH _ Hx) as [?|?]; [by left|right; by apply list_elem_of_further].
Qed.

(** In fetch_punting.py a row is header-like only through a cell whose
    normal form is "PLAYER": the other word of the test, 'Punt', has lower
    case letters, and a normal form is upper case.  Upper-casing is taken
    to leave no ASCII lower-case letter. *)
Theorem punting_header_word_is_dead (cols : list str) :
  (∀ s, Forall (λ c, ¬ ascii_islower c) (upper s)) →
  header_like fetch_punting cols ↔
  Exists (λ c, normalize_header c = lit "PLAYER") cols.
Proof.
  intros Hup. unfold header_like.
  change (lit <$> header_words fetch_punting) with [lit "PLAYER"; lit "Punt"].
  enough (Hpt : ∀ c, normalize_header c ∈ [lit "PLAYER"; lit "Punt"] ↔
                     normalize_header c = lit "PLAYER").
  { rewrite !Exists_exists. split; intros (c & ? & ?); exists c; (split; [done|]);
      by apply Hpt. }
  intros c. rewrite !elem_of_cons, elem_of_nil. split; [|tauto].
  intros [?|[Hpunt|[]]]; [done|exfalso].
  assert (117%N ∈ normalize_header c) as Hu.
  { rewrite Hpunt. apply (bool_decide_unpack _). by vm_compute. }
  unfold normalize_header in Hu. case_decide; [by apply elem_of_nil in Hu|].
  apply replace_go_elem in Hu as [Hu|Hu].
  - apply list_elem_of_singleton in Hu. done.
  - pose proof (Hup (strip c)) as Hall. rewrite Forall_forall in Hall.
    apply (Hall _ Hu). by vm_compute.
Qed.

Lemma splitlines_go_elem b s x :
  x ∈ s → ¬ line_boundary x → ∃ line, line ∈ splitlines_go b s ∧ x ∈ line.
Proof.
  intros Hx Hnb. revert b. induction s as [|c s IH]; intros b.
  { by apply elem_of_nil in Hx. }
  simpl. destruct (b && bool_decide (c = 10%N)) eqn:Hcr.
  { apply andb_true_iff in Hcr as [_ Hc]. apply bool_decide_eq_true in Hc as ->.
    apply elem_of_cons in Hx as [->|Hx]; [by destruct Hnb|]. by apply IH. }
  destruct (line_boundary c) eqn:Hb.
  { apply elem_of_cons in Hx as [->|Hx]; [rewrite Hb in Hnb; by destruct Hnb|].
    destruct (IH Hx (bool_decide (c = 13%N))) as (line & Hl & Hxl).
    exists line. split; [by apply list_elem_of_further|done]. }
  apply elem_of_cons in Hx as [->|Hx].
  { destruct (splitlines_go false s) as [|p ps]; eexists;
      (split; [apply list_elem_of_here|apply list_elem_of_here]). }
  destruct (IH Hx false) as (line & Hl & Hxl).
  destruct (splitlines_go false s) as [|p ps]; [by apply elem_of_nil in Hl|].
  apply elem_of_cons in Hl as [->|Hl].
  - exists (c :: p). split; [apply list_elem_of_here|by apply list_elem_of_further].
  - exists line. split; [by apply list_elem_of_further|done].
Qed.

(** [clean_name] returns the raw text itself or one of its lines,
    stripped and not blank; and a raw text with a comma gives a name with
    a comma (the comma is not white space). *)
Theorem clean_name_is_a_line (raw : str) :
  (clean_name raw = raw ∨
   ∃ line, line ∈ splitlines raw ∧ clean_name raw = strip line ∧ strip line ≠ []) ∧
  (¬ isspace 44%N → 44%N ∈ raw → 44%N ∈ clean_name raw).
Proof.
  unfold clean_name. case_decide as Hraw.
  { subst raw. split; [by left|]. by intros _ ?%elem_of_nil. }
  set (parts := strip <$> filter (λ p, strip p ≠ []) (splitlines raw)).
  assert (Hparts : ∀ p, p ∈ parts →
            ∃ line, line ∈ splitlines raw ∧ p = strip line ∧ strip line ≠ []).
  { intros p (line & -> & [Hne Hl]%list_elem_of_filter)%list_elem_of_fmap. eauto. }
  destruct (list_find (λ p, 44%N ∈ p) parts) as [[i p]|] eqn:Hfind.
  - apply list_find_Some in Hfind as (Hi & Hp & _). split; [|done].
    right. destruct (Hparts p) as (line & ? & -> & ?); [by eapply list_elem_of_lookup_2|].
    eauto.
  - split.
    + destruct parts as [|p ps] eqn:E; [by left|]. right. simpl.
      destruct (Hparts p) as (line & ? & -> & ?); [apply list_elem_of_here|]. eauto.
    + intros Hsp Hin. exfalso. apply list_find_None in Hfind. rewrite Forall_forall in Hfind.
      destruct (splitlines_go_elem false raw 44%N Hin) as (line & Hl & Hc).
      { by vm_compute. }
      apply (Hfind (strip line)); [|by apply elem_of_strip].
      apply list_elem_of_fmap. exists line. split; [done|].
      apply list_elem_of_filter. split; [|done].
      intros Hnil. apply (elem_of_strip _ _ Hc) in Hsp. rewrite Hnil in Hsp.
      by apply elem_of_nil in Hsp.
Qed.

End parse_facts.
Lemma ascii_upper_no_lower (s : str) : Forall (λ c, ¬ ascii_islower c) (ascii_upper s).
Proof.
  unfold ascii_upper. apply Forall_fmap, Forall_true. intros c. simpl.
  destruct (ascii_islower c) eqn:E; [|try rewrite E; simpl; tauto].
  unfold ascii_islower in *. apply bool_decide_eq_true in E.
  rewrite bool_decide_eq_false_2 by lia. simpl. tauto.
Qed.

Lemma number_is_count_without_hash_witness :
  ∃ v, @entry ascii_data fetch_punting [lit "NAME"; lit "NO"; lit "YDS"]
         [lit "Smith, J"; lit "12"; lit "400"] !! lit "#" = Some v ∧
       @entry ascii_data fetch_punting [lit "NAME"; lit "NO"; lit "YDS"]
         [lit "Smith, J"; lit "12"; lit "400"] !! lit "NO" = Some v.
Proof.
  apply (@number_is_count_without_hash ascii_data fetch_punting
           [lit "NAME"; lit "NO"; lit "YDS"] [[lit "Smith, J"; lit " 12"; lit "400 "]]).
  - apply list_elem_of_further, list_elem_of_here.
  - assert (@parse_table ascii_data fetch_punting [lit "NAME"; lit "NO"; lit "YDS"]
              [[lit "Smith, J"; lit " 12"; lit "400 "]]
            = [@entry ascii_data fetch_punting [lit "NAME"; lit "NO"; lit "YDS"]
                 [lit "Smith, J"; lit "12"; lit "400"]]) as -> by (by vm_compute).
    apply list_elem_of_here.
  - apply Forall_forall. apply (bool_decide_unpack _). by vm_compute.
  - exists (lit "NO"). split; [|by vm_compute].
    apply list_elem_of_further, list_elem_of_here.
Defined.

Lemma punting_header_word_is_dead_witness :
  @header_like ascii_data fetch_punting [lit "Punt"; lit "45.0"] ↔
  Exists (λ c, @normalize_header ascii_data c = lit "PLAYER") [lit "Punt"; lit "45.0"].
Proof.
  apply (@punting_header_word_is_dead ascii_data [lit "Punt"; lit "45.0"]).
  exact ascii_upper_no_lower.
Defined.

End SpecialTableFacts.
